(** * Order-line analysis: a shallow embedding of [streamlit_app.py]

    The program reads a table of order lines into a pandas [DataFrame] and
    derives five result tables from it.  The four analysis functions receive
    the SAME frame object and three of them add or overwrite columns on it, so
    the frame is threaded through the functions as explicit state.

    Modelling conventions.
    - A column is a list of values; a frame is a record of optional columns
      ([None]: the frame has no column of that name, looking it up raises
      [KeyError]).
    - The numeric columns hold [cell]s: a 64-bit integer (pandas [int64],
      whose arithmetic wraps around silently) or a string (what [read_csv]
      delivers for a column that does not parse as numbers).  Arithmetic on
      cells follows Python's operators, including string repetition and
      concatenation.  Columns of decimal numbers ([float64]) are not part of
      the model: the statements below are about tables whose QTY, Unit Price
      and Unit Cost are integers.
    - Every cell of a table is present: missing values (the NaN and NaT that
      [read_csv] makes of empty fields) are not part of the model.
    - Timestamps are integers (nanoseconds since 1970-01-01, as
      [datetime64[ns]] stores them); a monthly period is the number of months
      since January 1970.
    - [sort_values] is modelled by a stable insertion sort (the sort by
      several columns is stable in pandas; the sort by one column need not
      be).  The general statements below do not depend on the order of rows
      with equal keys; the table evaluated for C5 lists its two tied lines in
      input order. *)

From Stdlib Require Import ZArith List String Ascii Bool Lia Permutation.
Import ListNotations.
Open Scope string_scope.
Open Scope Z_scope.

Set Implicit Arguments.

(* ================================================================== *)
(** * Errors *)

(** The exceptions the pandas operations of the program raise, together with
    the two error classes that only the specification names.  The program
    defines no exception class of its own: no operation below constructs
    [SchemaError] or [DataError]. *)
Inductive exn : Type :=
| KeyError (labels : list string)
| TypeError
| ValueError
| SchemaError
| DataError.

Inductive result (A : Type) : Type :=
| Ok (a : A)
| Raise (e : exn).

Arguments Ok {A} a.
Arguments Raise {A} e.

Definition bind {A B} (m : result A) (k : A -> result B) : result B :=
  match m with
  | Ok a => k a
  | Raise e => Raise e
  end.

Declare Scope result_scope.
Delimit Scope result_scope with result.
Notation "x <- m ;; k" := (bind m (fun x => k))
  (at level 61, m at next level, right associativity) : result_scope.
Notation "' p <- m ;; k" := (bind m (fun x => match x with p => k end))
  (at level 61, p pattern, m at next level, right associativity) : result_scope.
Open Scope result_scope.

Fixpoint mapM {A B} (f : A -> result B) (l : list A) : result (list B) :=
  match l with
  | [] => Ok []
  | x :: r => y <- f x ;; ys <- mapM f r ;; Ok (y :: ys)
  end.

Fixpoint zipWithM {A B C} (f : A -> B -> result C) (l1 : list A) (l2 : list B)
  : result (list C) :=
  match l1, l2 with
  | x :: r1, y :: r2 => z <- f x y ;; zs <- zipWithM f r1 r2 ;; Ok (z :: zs)
  | _, _ => Ok []
  end.

(* ================================================================== *)
(** * Cells and Python arithmetic *)

Definition min_int64 : Z := - 2 ^ 63.
Definition max_int64 : Z := 2 ^ 63 - 1.

(** What an [int64] operation keeps of its exact result [z]: the value
    modulo 2^64 in the range from [min_int64] to [max_int64].  numpy raises no
    error on overflow. *)
Definition wrap (z : Z) : Z := (z + 2 ^ 63) mod 2 ^ 64 - 2 ^ 63.

(** A cell of a numeric column: an [int64] value, or text. *)
Inductive cell : Type :=
| CInt (z : Z)
| CStr (s : string).

(** [s * n] on a Python string: [n] copies, none when [n <= 0]. *)
Fixpoint repeat_string (s : string) (n : nat) : string :=
  match n with
  | O => ""
  | S k => s ++ repeat_string s k
  end.

Definition py_mul (a b : cell) : result cell :=
  match a, b with
  | CInt x, CInt y => Ok (CInt (wrap (x * y)))
  | CStr s, CInt n => Ok (CStr (repeat_string s (Z.to_nat n)))
  | CInt n, CStr s => Ok (CStr (repeat_string s (Z.to_nat n)))
  | CStr _, CStr _ => Raise TypeError
  end.

Definition py_add (a b : cell) : result cell :=
  match a, b with
  | CInt x, CInt y => Ok (CInt (wrap (x + y)))
  | CStr s, CStr t => Ok (CStr (s ++ t))
  | _, _ => Raise TypeError
  end.

Definition py_sub (a b : cell) : result cell :=
  match a, b with
  | CInt x, CInt y => Ok (CInt (wrap (x - y)))
  | _, _ => Raise TypeError
  end.

(** The operand of [+ 15], of [-] and of [/] against a number: a string there
    raises [TypeError]. *)
Definition num (c : cell) : result Z :=
  match c with
  | CInt z => Ok z
  | CStr _ => Raise TypeError
  end.

(** [Series.sum] and the group-by ['sum']: 0 for no values, otherwise the
    values folded with [+] from the first one (strings concatenate). *)
Fixpoint sum_from (acc : cell) (l : list cell) : result cell :=
  match l with
  | [] => Ok acc
  | x :: r => acc' <- py_add acc x ;; sum_from acc' r
  end.

Definition series_sum (l : list cell) : result cell :=
  match l with
  | [] => Ok (CInt 0)
  | x :: r => sum_from x r
  end.

(** Element-wise [*] and [-] of two columns of one frame. *)
Definition series_mul (a b : list cell) : result (list cell) := zipWithM py_mul a b.
Definition series_sub (a b : list cell) : result (list cell) := zipWithM py_sub a b.

(** The [float64] result of a division [a / b] of two integers, kept as the
    pair it is computed from: the rounding of the quotient is not modelled. *)
Inductive fnum : Type :=
| Ratio (numerator denominator : Z)   (* denominator <> 0 *)
| Inf
| NegInf
| NaN.

Definition truediv (a b : Z) : fnum :=
  if b =? 0 then
    (if a =? 0 then NaN else if 0 <? a then Inf else NegInf)
  else Ratio a b.

(* ================================================================== *)
(** * Lists as columns *)

Definition Zsum (l : list Z) : Z := fold_right Z.add 0 l.

(** The sum of an [int64] column as [Series.sum] and the group-by ['sum']
    compute it: every addition wraps. *)
Definition int64_sum (l : list Z) : Z :=
  match l with
  | [] => 0
  | x :: r => fold_left (fun acc y => wrap (acc + y)) r x
  end.

(** Boolean indexing [col[mask]]. *)
Fixpoint take_rows {A} (mask : list bool) (col : list A) : list A :=
  match mask, col with
  | b :: m, x :: c => if b then x :: take_rows m c else take_rows m c
  | _, _ => []
  end.

(** [Series.duplicated(keep='first')]: a value is a duplicate when it occurred
    at an earlier position. *)
Fixpoint duplicated_from (seen : list string) (l : list string) : list bool :=
  match l with
  | [] => []
  | x :: r =>
      (if in_dec string_dec x seen then true else false)
        :: duplicated_from (x :: seen) r
  end.

Definition duplicated (l : list string) : list bool := duplicated_from [] l.

(** Stable insertion sort by a comparison. *)
Fixpoint insert_by {A} (le : A -> A -> bool) (x : A) (l : list A) : list A :=
  match l with
  | [] => [x]
  | y :: r => if le x y then x :: l else y :: insert_by le x r
  end.

Definition sort_by {A} (le : A -> A -> bool) (l : list A) : list A :=
  fold_right (insert_by le) [] l.

(** The group keys of [groupby(...)] (sort=True): the distinct values,
    ascending. *)
Definition unique_strings (l : list string) : list string :=
  sort_by String.leb (nodup string_dec l).

Definition unique_Z (l : list Z) : list Z :=
  sort_by Z.leb (nodup Z.eq_dec l).

(** The group-by ['first']: the first value of the group that is not
    missing.  Groups are never empty and no cell of the model is missing, so
    this is the value of the first row of the group. *)
Definition first {A} (d : A) (l : list A) : A := hd d l.

(* ================================================================== *)
(** * Calendar *)

Definition ns_per_day : Z := 86400 * 1000000000.

(** Year and month of a day number (days since 1970-01-01), proleptic
    Gregorian calendar. *)
Definition civil_from_days (days : Z) : Z * Z :=
  let z := days + 719468 in
  let era := z / 146097 in
  let doe := z - era * 146097 in
  let yoe := (doe - doe / 1460 + doe / 36524 - doe / 146096) / 365 in
  let doy := doe - (365 * yoe + yoe / 4 - yoe / 100) in
  let mp := (5 * doy + 2) / 153 in
  let m := if mp <? 10 then mp + 3 else mp - 9 in
  let y := yoe + era * 400 in
  (if m <=? 2 then y + 1 else y, m).

Definition days_from_civil (y m d : Z) : Z :=
  let y := if m <=? 2 then y - 1 else y in
  let era := y / 400 in
  let yoe := y - era * 400 in
  let doy := (153 * (if 2 <? m then m - 3 else m + 9) + 2) / 5 + d - 1 in
  let doe := yoe * 365 + yoe / 4 - yoe / 100 + doy in
  era * 146097 + doe - 719468.

(** [.dt.to_period('M')]: months since January 1970. *)
Definition to_period_M (ts : Z) : Z :=
  let '(y, m) := civil_from_days (ts / ns_per_day) in
  (y - 1970) * 12 + (m - 1).

Definition period_year (p : Z) : Z := 1970 + p / 12.
Definition period_month (p : Z) : Z := p mod 12 + 1.

(** [.dt.to_timestamp()]: the first instant of the month. *)
Definition to_timestamp (p : Z) : Z :=
  days_from_civil (period_year p) (period_month p) 1 * ns_per_day.

Definition digit (n : Z) : string :=
  String (ascii_of_nat (48 + Z.to_nat (n mod 10))) "".

Fixpoint digits (fuel : nat) (n : Z) : string :=
  match fuel with
  | O => ""
  | S k => if n <? 10 then digit n else digits k (n / 10) ++ digit n
  end.

(** [astype(str)] of a monthly period: ["YYYY-MM"]. *)
Definition period_str (p : Z) : string :=
  let y := period_year p in
  let m := period_month p in
  (if y <? 0 then "-" ++ digits 20 (- y) else digits 20 y)
    ++ "-" ++ digit (m / 10) ++ digit m.

(* ================================================================== *)
(** * The frame *)

Module Frame.

(** The columns the program reads or writes on the shared frame. *)
Record t : Type := mk {
  Order_ID : option (list string);
  Email : option (list string);
  Date_placed : option (list Z);
  Date_Completed : option (list Z);
  SKU : option (list string);
  QTY : option (list cell);
  Unit_Price : option (list cell);
  Unit_Cost : option (list cell);
  Revenue : option (list cell);
  Profit : option (list cell);
  Is_First_Item : option (list bool)
}.

(** [df[name] = value] for the three columns the program assigns. *)
Definition set_Revenue (v : list cell) (df : t) : t :=
  mk (Order_ID df) (Email df) (Date_placed df) (Date_Completed df) (SKU df)
     (QTY df) (Unit_Price df) (Unit_Cost df) (Some v) (Profit df)
     (Is_First_Item df).

Definition set_Profit (v : list cell) (df : t) : t :=
  mk (Order_ID df) (Email df) (Date_placed df) (Date_Completed df) (SKU df)
     (QTY df) (Unit_Price df) (Unit_Cost df) (Revenue df) (Some v)
     (Is_First_Item df).

Definition set_Is_First_Item (v : list bool) (df : t) : t :=
  mk (Order_ID df) (Email df) (Date_placed df) (Date_Completed df) (SKU df)
     (QTY df) (Unit_Price df) (Unit_Cost df) (Revenue df) (Profit df)
     (Some v).

Definition present {A} (name : string) (c : option A) : list string :=
  match c with
  | Some _ => [name]
  | None => []
  end.

(** [df.columns]. *)
Definition columns (df : t) : list string :=
  present "Order ID" (Order_ID df) ++ present "Email" (Email df)
    ++ present "Date placed" (Date_placed df)
    ++ present "Date Completed" (Date_Completed df)
    ++ present "SKU" (SKU df) ++ present "QTY" (QTY df)
    ++ present "Unit Price" (Unit_Price df)
    ++ present "Unit Cost" (Unit_Cost df)
    ++ present "Revenue" (Revenue df) ++ present "Profit" (Profit df)
    ++ present "Is_First_Item" (Is_First_Item df).

End Frame.

Definition DataFrame : Type := Frame.t.

(** [df[name]]: the column, or [KeyError]. *)
Definition getitem {A} (name : string) (c : option A) : result A :=
  match c with
  | Some v => Ok v
  | None => Raise (KeyError [name])
  end.

(** The column check of [.agg({...})]: the requested names that are not
    columns of the frame are reported together, in sorted order. *)
Definition require_columns (df : DataFrame) (names : list string) : result unit :=
  match filter (fun n => negb (existsb (String.eqb n) (Frame.columns df)))
               (sort_by String.leb names) with
  | [] => Ok tt
  | missing => Raise (KeyError missing)
  end.

(** One parsed row of the uploaded file, numeric fields as delivered. *)
Record RawLine : Type := mkRaw {
  raw_Order_ID : string;
  raw_Email : string;
  raw_Date_placed : Z;
  raw_Date_Completed : Z;
  raw_SKU : string;
  raw_QTY : cell;
  raw_Unit_Price : cell;
  raw_Unit_Cost : cell
}.

(** [load_data]: the frame of a parsed file that has all eight columns
    (parsing of the text and of the dates is outside the model). *)
Definition load_data (rows : list RawLine) : DataFrame :=
  Frame.mk (Some (map raw_Order_ID rows)) (Some (map raw_Email rows))
           (Some (map raw_Date_placed rows))
           (Some (map raw_Date_Completed rows))
           (Some (map raw_SKU rows)) (Some (map raw_QTY rows))
           (Some (map raw_Unit_Price rows)) (Some (map raw_Unit_Cost rows))
           None None None.

(** An order line with numeric quantities, as the data model has it. *)
Record Line : Type := mkLine {
  OrderID : string;
  LEmail : string;
  DatePlaced : Z;
  DateCompleted : Z;
  LSKU : string;
  LQTY : Z;
  UnitPrice : Z;
  UnitCost : Z
}.

Definition raw_of_line (l : Line) : RawLine :=
  mkRaw (OrderID l) (LEmail l) (DatePlaced l) (DateCompleted l) (LSKU l)
        (CInt (LQTY l)) (CInt (UnitPrice l)) (CInt (UnitCost l)).

Definition load_lines (ls : list Line) : DataFrame :=
  load_data (map raw_of_line ls).

(* ================================================================== *)
(** * Order Aggregator and Cohort Summarizer: [analyse_data] *)

Module Order.

(** A row of [order_data]. *)
Record row : Type := mk {
  Order_ID : string;
  Email : string;
  Date_placed : Z;
  Revenue : Z;
  Unit_Cost : Z;
  Profit : Z;
  Customer_Type : string;
  Month_Year : Z
}.

End Order.

Module Matrix.

(** [count_data] and [revenue_data]: the ['Month-Year'] column and the
    value columns that [unstack] made of the customer types, by name. *)
Record t : Type := mk {
  Month_Year : list string;
  columns : list (string * list Z)
}.

Definition column_names (m : t) : list string :=
  "Month-Year" :: map fst (columns m).

End Matrix.

Definition group_mask (k : string) (keys : list string) : list bool :=
  map (String.eqb k) keys.

(** A row of [df.groupby('Order ID').agg({...}).reset_index()]. *)
Record OrderAgg : Type := mkAgg {
  agg_Order_ID : string;
  agg_Email : string;
  agg_Date_placed : Z;
  agg_Revenue : cell;
  agg_Unit_Cost : cell
}.

Definition aggregate_order (ids emails : list string) (dates : list Z)
    (revenue cost qty : list cell) (k : string) : result OrderAgg :=
  let g := group_mask k ids in
  r <- series_sum (take_rows g revenue) ;;
  x <- series_mul (take_rows g cost) (take_rows g qty) ;;
  c <- series_sum x ;;
  Ok (mkAgg k (first "" (take_rows g emails)) (first 0 (take_rows g dates)) r c).

(** [order_data['Revenue'] += 15] and
    [order_data['Profit'] = order_data['Revenue'] - order_data['Unit Cost']],
    both in [int64]; customer type and month are filled in below. *)
Definition add_shipping_and_profit (a : OrderAgg) : result Order.row :=
  r <- num (agg_Revenue a) ;;
  let revenue := wrap (r + 15) in
  c <- num (agg_Unit_Cost a) ;;
  Ok (Order.mk (agg_Order_ID a) (agg_Email a) (agg_Date_placed a)
               revenue c (wrap (revenue - c)) "" 0).

Definition Zmin_list (l : list Z) : Z :=
  match l with
  | [] => 0
  | x :: r => fold_left Z.min r x
  end.

(** [order_data.groupby('Email')['Date placed'].min()], a series indexed by
    email. *)
Definition first_purchase_dates (orders : list Order.row) : list (string * Z) :=
  let emails := map Order.Email orders in
  map (fun e => (e, Zmin_list (take_rows (group_mask e emails)
                                         (map Order.Date_placed orders))))
      (unique_strings emails).

(** [series[label]]. *)
Definition series_lookup (s : list (string * Z)) (label : string) : result Z :=
  match find (fun kv => (fst kv =? label)%string) s with
  | Some kv => Ok (snd kv)
  | None => Raise (KeyError [label])
  end.

Definition classify (fpd : list (string * Z)) (o : Order.row) : result Order.row :=
  d <- series_lookup fpd (Order.Email o) ;;
  Ok (Order.mk (Order.Order_ID o) (Order.Email o) (Order.Date_placed o)
               (Order.Revenue o) (Order.Unit_Cost o) (Order.Profit o)
               (if d <? Order.Date_placed o then "Repeat" else "First-time")
               (to_period_M (Order.Date_placed o))).

Definition in_cohort (m : Z) (t : string) (o : Order.row) : bool :=
  (Order.Month_Year o =? m) && (Order.Customer_Type o =? t)%string.

(** [orders.groupby(['Month-Year', 'Customer Type'])....unstack(fill_value=0)
    .reset_index()] followed by [astype(str)] of the month: one row per
    month, one column per customer type that occurs, [value] of the group or
    the fill value where the group is absent. *)
Definition unstack (value : list Order.row -> Z) (orders : list Order.row)
  : Matrix.t :=
  let months := unique_Z (map Order.Month_Year orders) in
  let types := unique_strings (map Order.Customer_Type orders) in
  Matrix.mk (map period_str months)
    (map (fun t =>
            (t, map (fun m => match filter (in_cohort m t) orders with
                              | [] => 0
                              | g => value g
                              end) months))
         types).

(** [if col not in df.columns: df[col] = 0]. *)
Definition ensure_column (col : string) (m : Matrix.t) : Matrix.t :=
  if existsb (String.eqb col) (Matrix.column_names m) then m
  else Matrix.mk (Matrix.Month_Year m)
                 (Matrix.columns m ++ [(col, map (fun _ => 0) (Matrix.Month_Year m))]).

Definition ensure_columns (m : Matrix.t) : Matrix.t :=
  fold_left (fun m col => ensure_column col m) ["First-time"; "Repeat"] m.

Definition analyse_data (df : DataFrame)
  : result (Matrix.t * Matrix.t * list Order.row * DataFrame) :=
  (* df['Revenue'] = df['QTY'] * df['Unit Price'] *)
  qty <- getitem "QTY" (Frame.QTY df) ;;
  price <- getitem "Unit Price" (Frame.Unit_Price df) ;;
  revenue <- series_mul qty price ;;
  let df := Frame.set_Revenue revenue df in
  (* df.groupby('Order ID').agg({...}).reset_index() *)
  ids <- getitem "Order ID" (Frame.Order_ID df) ;;
  _ <- require_columns df ["Email"; "Date placed"; "Revenue"; "Unit Cost"] ;;
  emails <- getitem "Email" (Frame.Email df) ;;
  dates <- getitem "Date placed" (Frame.Date_placed df) ;;
  revenue <- getitem "Revenue" (Frame.Revenue df) ;;
  cost <- getitem "Unit Cost" (Frame.Unit_Cost df) ;;
  qty <- getitem "QTY" (Frame.QTY df) ;;
  aggs <- mapM (aggregate_order ids emails dates revenue cost qty)
               (unique_strings ids) ;;
  (* shipping fee and profit *)
  orders <- mapM add_shipping_and_profit aggs ;;
  (* sort_values('Date placed') *)
  let orders :=
    sort_by (fun a b => Order.Date_placed a <=? Order.Date_placed b) orders in
  (* customer type and month: on a table without rows [apply(..., axis=1)]
     returns an empty frame instead of a column, and assigning that frame to
     order_data['Customer Type'] raises ValueError *)
  let fpd := first_purchase_dates orders in
  order_data <- match orders with
                | [] => Raise ValueError
                | _ :: _ => mapM (classify fpd) orders
                end ;;
  let count_data := unstack (fun g => Z.of_nat (List.length g)) order_data in
  let revenue_data := unstack (fun g => int64_sum (map Order.Revenue g)) order_data in
  Ok (ensure_columns count_data, ensure_columns revenue_data, order_data, df).

(* ================================================================== *)
(** * Product Performance Aggregator: [analyse_product_sales] *)

Module Product.

(** A row of [product_analysis]. *)
Record row : Type := mk {
  SKU : string;
  QTY : cell;
  Revenue : Z;
  Profit : Z;
  Unit_Price : fnum;
  Unit_Cost : fnum;
  Profit_Margin : fnum
}.

End Product.

(** [df.loc[mask, col] += n]. *)
Definition add_where (mask : list bool) (col : list cell) (n : Z)
  : result (list cell) :=
  zipWithM (fun (b : bool) c => if b then py_add c (CInt n) else Ok c) mask col.

(** The group-by ['mean']: the values are converted to [float64] before they
    are added, so the sum does not wrap; text is rejected. *)
Definition series_mean (l : list cell) : result fnum :=
  zs <- mapM num l ;;
  Ok (truediv (Zsum zs) (Z.of_nat (List.length l))).

(** A row of [df.groupby('SKU').agg({...}).reset_index()]. *)
Record ProductAgg : Type := mkPAgg {
  pagg_SKU : string;
  pagg_QTY : cell;
  pagg_Revenue : cell;
  pagg_Profit : cell;
  pagg_Unit_Price : fnum;
  pagg_Unit_Cost : fnum
}.

Definition aggregate_product (skus : list string)
    (qty revenue profit price cost : list cell) (k : string) : result ProductAgg :=
  let g := group_mask k skus in
  q <- series_sum (take_rows g qty) ;;
  r <- series_sum (take_rows g revenue) ;;
  p <- series_sum (take_rows g profit) ;;
  mp <- series_mean (take_rows g price) ;;
  mc <- series_mean (take_rows g cost) ;;
  Ok (mkPAgg k q r p mp mc).

(** [product_analysis['Profit'] / product_analysis['Revenue']]. *)
Definition profit_margin (a : ProductAgg) : result Product.row :=
  p <- num (pagg_Profit a) ;;
  r <- num (pagg_Revenue a) ;;
  Ok (Product.mk (pagg_SKU a) (pagg_QTY a) r p (pagg_Unit_Price a)
                 (pagg_Unit_Cost a) (truediv p r)).

Definition analyse_product_sales (df : DataFrame)
  : result (list Product.row * DataFrame) :=
  (* df['Revenue'] = df['QTY'] * df['Unit Price'] *)
  qty <- getitem "QTY" (Frame.QTY df) ;;
  price <- getitem "Unit Price" (Frame.Unit_Price df) ;;
  revenue <- series_mul qty price ;;
  let df := Frame.set_Revenue revenue df in
  (* df['Profit'] = (df['Unit Price'] - df['Unit Cost']) * df['QTY'] *)
  price <- getitem "Unit Price" (Frame.Unit_Price df) ;;
  cost <- getitem "Unit Cost" (Frame.Unit_Cost df) ;;
  unit_profit <- series_sub price cost ;;
  qty <- getitem "QTY" (Frame.QTY df) ;;
  profit <- series_mul unit_profit qty ;;
  let df := Frame.set_Profit profit df in
  (* df['Is_First_Item'] = ~df['Order ID'].duplicated(keep='first') *)
  ids <- getitem "Order ID" (Frame.Order_ID df) ;;
  let df := Frame.set_Is_First_Item (map negb (duplicated ids)) df in
  (* df.loc[df['Is_First_Item'], 'Revenue'] += 15 *)
  mask <- getitem "Is_First_Item" (Frame.Is_First_Item df) ;;
  revenue <- getitem "Revenue" (Frame.Revenue df) ;;
  revenue <- add_where mask revenue 15 ;;
  let df := Frame.set_Revenue revenue df in
  (* df.loc[df['Is_First_Item'], 'Profit'] += 15 *)
  mask <- getitem "Is_First_Item" (Frame.Is_First_Item df) ;;
  profit <- getitem "Profit" (Frame.Profit df) ;;
  profit <- add_where mask profit 15 ;;
  let df := Frame.set_Profit profit df in
  (* df.groupby('SKU').agg({...}).reset_index() *)
  skus <- getitem "SKU" (Frame.SKU df) ;;
  _ <- require_columns df ["QTY"; "Revenue"; "Profit"; "Unit Price"; "Unit Cost"] ;;
  qty <- getitem "QTY" (Frame.QTY df) ;;
  revenue <- getitem "Revenue" (Frame.Revenue df) ;;
  profit <- getitem "Profit" (Frame.Profit df) ;;
  price <- getitem "Unit Price" (Frame.Unit_Price df) ;;
  cost <- getitem "Unit Cost" (Frame.Unit_Cost df) ;;
  aggs <- mapM (aggregate_product skus qty revenue profit price cost)
               (unique_strings skus) ;;
  (* profit margin *)
  products <- mapM profit_margin aggs ;;
  (* sort_values('Revenue', ascending=False) *)
  Ok (sort_by (fun a b => Product.Revenue b <=? Product.Revenue a) products, df).

(* ================================================================== *)
(** * Monthly Profitability Aggregator: [analyse_profitability_over_time] *)

Module MonthBucket.

(** A row of [profitability]. *)
Record row : Type := mk {
  Date_placed : Z;
  Profit : cell;
  Revenue : cell;
  Cumulative_Profit : cell
}.

End MonthBucket.

(** [Series.cumsum]. *)
Fixpoint cumsum_from (acc : cell) (l : list cell) : result (list cell) :=
  match l with
  | [] => Ok []
  | x :: r => acc' <- py_add acc x ;; cs <- cumsum_from acc' r ;; Ok (acc' :: cs)
  end.

Definition cumsum (l : list cell) : result (list cell) :=
  match l with
  | [] => Ok []
  | x :: r => cs <- cumsum_from x r ;; Ok (x :: cs)
  end.

(** A row of [df.groupby(month).agg({...}).reset_index()], the month turned
    into its first instant. *)
Definition aggregate_month (periods : list Z) (profit revenue : list cell)
    (m : Z) : result (Z * cell * cell) :=
  let g := map (Z.eqb m) periods in
  p <- series_sum (take_rows g profit) ;;
  r <- series_sum (take_rows g revenue) ;;
  Ok (to_timestamp m, p, r).

Definition analyse_profitability_over_time (df : DataFrame)
  : result (list MonthBucket.row * DataFrame) :=
  (* df['Profit'] = (df['Unit Price'] - df['Unit Cost']) * df['QTY'] *)
  price <- getitem "Unit Price" (Frame.Unit_Price df) ;;
  cost <- getitem "Unit Cost" (Frame.Unit_Cost df) ;;
  unit_profit <- series_sub price cost ;;
  qty <- getitem "QTY" (Frame.QTY df) ;;
  profit <- series_mul unit_profit qty ;;
  let df := Frame.set_Profit profit df in
  (* df['Is_First_Item'] = ~df['Order ID'].duplicated(keep='first') *)
  ids <- getitem "Order ID" (Frame.Order_ID df) ;;
  let df := Frame.set_Is_First_Item (map negb (duplicated ids)) df in
  (* df.loc[df['Is_First_Item'], 'Profit'] += 15 *)
  mask <- getitem "Is_First_Item" (Frame.Is_First_Item df) ;;
  profit <- getitem "Profit" (Frame.Profit df) ;;
  profit <- add_where mask profit 15 ;;
  let df := Frame.set_Profit profit df in
  (* df.loc[df['Is_First_Item'], 'Revenue'] += 15 *)
  mask <- getitem "Is_First_Item" (Frame.Is_First_Item df) ;;
  revenue <- getitem "Revenue" (Frame.Revenue df) ;;
  revenue <- add_where mask revenue 15 ;;
  let df := Frame.set_Revenue revenue df in
  (* df.groupby(df['Date placed'].dt.to_period('M')).agg({...}) *)
  dates <- getitem "Date placed" (Frame.Date_placed df) ;;
  let periods := map to_period_M dates in
  _ <- require_columns df ["Profit"; "Revenue"] ;;
  profit <- getitem "Profit" (Frame.Profit df) ;;
  revenue <- getitem "Revenue" (Frame.Revenue df) ;;
  months <- mapM (aggregate_month periods profit revenue) (unique_Z periods) ;;
  (* sort_values('Date placed') *)
  let months := sort_by (fun a b => fst (fst a) <=? fst (fst b)) months in
  (* profitability['Cumulative Profit'] = profitability['Profit'].cumsum() *)
  cumulative <- cumsum (map (fun m => snd (fst m)) months) ;;
  Ok (map (fun mc => MonthBucket.mk (fst (fst (fst mc))) (snd (fst (fst mc)))
                                    (snd (fst mc)) (snd mc))
          (combine months cumulative), df).

(* ================================================================== *)
(** * Purchase-Affinity Analyzer: [analyse_first_and_repeat_purchases] *)

Module Affinity.

(** A row of [purchase_analysis]. *)
Record row : Type := mk {
  SKU : string;
  First_Purchase_Count : Z;
  Repeat_Purchase_Count : Z;
  Repeat_to_First_Ratio : fnum
}.

End Affinity.

(** The order of [sort_values(['Email', 'Date placed'])]. *)
Definition email_date_le (a b : string * Z * string) : bool :=
  let '(ea, da, _) := a in
  let '(eb, db, _) := b in
  String.ltb ea eb || ((ea =? eb)%string && (da <=? db)).

Definition count_of (k : string) (l : list string) : Z :=
  Z.of_nat (List.length (filter (String.eqb k) l)).

(** [Series.value_counts().reset_index()]: the distinct values with their
    number of occurrences, most frequent first. *)
Definition value_counts (l : list string) : list (string * Z) :=
  sort_by (fun a b => snd b <=? snd a)
          (map (fun k => (k, count_of k l))
               (take_rows (map negb (duplicated l)) l)).

(** The count of a key in a count table, 0 where [merge(how='outer')] leaves
    it missing and [fillna(0)] fills it. *)
Definition count_or_zero (t : list (string * Z)) (k : string) : Z :=
  match find (fun kv => (fst kv =? k)%string) t with
  | Some kv => snd kv
  | None => 0
  end.

(** [pd.merge(first, repeat, on='SKU', how='outer').fillna(0)] with the ratio
    column. *)
Definition merge_counts (fc rc : list (string * Z)) : list Affinity.row :=
  map (fun k =>
         let f := count_or_zero fc k in
         let r := count_or_zero rc k in
         Affinity.mk k f r (truediv r f))
      (unique_strings (map fst fc ++ map fst rc)).

Definition analyse_first_and_repeat_purchases (df : DataFrame)
  : result (list Affinity.row) :=
  (* df_sorted = df.sort_values(['Email', 'Date placed']) *)
  emails <- getitem "Email" (Frame.Email df) ;;
  dates <- getitem "Date placed" (Frame.Date_placed df) ;;
  skus <- getitem "SKU" (Frame.SKU df) ;;
  let df_sorted := sort_by email_date_le (combine (combine emails dates) skus) in
  (* is_first_purchase = ~df_sorted['Email'].duplicated(keep='first') *)
  let is_first_purchase :=
    map negb (duplicated (map (fun r => fst (fst r)) df_sorted)) in
  let first_purchases := take_rows is_first_purchase df_sorted in
  let repeat_purchases := take_rows (map negb is_first_purchase) df_sorted in
  let first_purchase_counts := value_counts (map snd first_purchases) in
  let repeat_purchase_counts := value_counts (map snd repeat_purchases) in
  let purchase_analysis := merge_counts first_purchase_counts repeat_purchase_counts in
  (* sort_values('First Purchase Count', ascending=False) *)
  Ok (sort_by (fun a b => Affinity.First_Purchase_Count b
                            <=? Affinity.First_Purchase_Count a)
              purchase_analysis).

(* ================================================================== *)
(** * The pipeline of [main] *)

Record Outputs : Type := mkOutputs {
  count_data : Matrix.t;
  revenue_data : Matrix.t;
  order_data : list Order.row;
  product_analysis : list Product.row;
  profitability_data : list MonthBucket.row;
  first_repeat_analysis : list Affinity.row;
  raw_data : DataFrame
}.

(** The analysis part of [main] on an uploaded file: one frame is loaded and
    handed to the four functions in turn (rendering is outside the model). *)
Definition main (uploaded_file : list RawLine) : result Outputs :=
  let df := load_data uploaded_file in
  '(count_data, revenue_data, order_data, df) <- analyse_data df ;;
  '(product_analysis, df) <- analyse_product_sales df ;;
  '(profitability_data, df) <- analyse_profitability_over_time df ;;
  first_repeat_analysis <- analyse_first_and_repeat_purchases df ;;
  Ok (mkOutputs count_data revenue_data order_data product_analysis
                profitability_data first_repeat_analysis df).

(* ================================================================== *)
(** * Definitions for the statements

    Row-wise readings of the result tables on a table of order lines, the
    predicates of the statements and the example tables. *)

Definition zip_with {A B C} (f : A -> B -> C) (a : list A) (b : list B) : list C :=
  map (fun p => f (fst p) (snd p)) (combine a b).

(** The frame whose input columns hold the lines [ls] and whose derived
    columns are as given: every state the shared frame takes in [main]. *)
Definition frame_of (ls : list Line) (revenue profit : option (list cell))
    (flags : option (list bool)) : DataFrame :=
  Frame.mk (Some (map OrderID ls)) (Some (map LEmail ls))
           (Some (map DatePlaced ls)) (Some (map DateCompleted ls))
           (Some (map LSKU ls))
           (Some (map (fun l => CInt (LQTY l)) ls))
           (Some (map (fun l => CInt (UnitPrice l)) ls))
           (Some (map (fun l => CInt (UnitCost l)) ls))
           revenue profit flags.

Definition order_lines (ls : list Line) (k : string) : list Line :=
  filter (fun l => (k =? OrderID l)%string) ls.

Definition line_revenue (l : Line) : Z := LQTY l * UnitPrice l.
Definition line_cost (l : Line) : Z := UnitCost l * LQTY l.

Definition order_of (ls : list Line) (k : string) : Order.row :=
  let g := order_lines ls k in
  let revenue := Zsum (map line_revenue g) + 15 in
  let cost := Zsum (map line_cost g) in
  Order.mk k (first "" (map LEmail g)) (first 0 (map DatePlaced g))
           revenue cost (revenue - cost) "" 0.

Definition date_le (a b : Order.row) : bool :=
  Order.Date_placed a <=? Order.Date_placed b.

Definition sorted_orders (ls : list Line) : list Order.row :=
  sort_by date_le (map (order_of ls) (unique_strings (map OrderID ls))).

(** The earliest order date of an email among [orders]. *)
Definition earliest (orders : list Order.row) (e : string) : Z :=
  Zmin_list (map Order.Date_placed
                 (filter (fun o => (e =? Order.Email o)%string) orders)).

Definition classified (orders : list Order.row) (o : Order.row) : Order.row :=
  Order.mk (Order.Order_ID o) (Order.Email o) (Order.Date_placed o)
           (Order.Revenue o) (Order.Unit_Cost o) (Order.Profit o)
           (if earliest orders (Order.Email o) <? Order.Date_placed o
            then "Repeat" else "First-time")
           (to_period_M (Order.Date_placed o)).

Definition orders_of (ls : list Line) : list Order.row :=
  map (classified (sorted_orders ls)) (sorted_orders ls).

(** The claim of exactly one first-time order per customer, for one email of
    an order table. *)
Definition exactly_one_first_time (orders : list Order.row) (e : string) : Prop :=
  exists o,
    In o orders /\ Order.Email o = e /\ Order.Customer_Type o = "First-time"
    /\ forall o', In o' orders -> Order.Email o' = e -> o' <> o ->
                  Order.Customer_Type o' = "Repeat".

(** Two orders of one customer placed on the same day. *)
Definition same_day_orders : list Line :=
  [ mkLine "O1" "a@x.com" 1704067200000000000 1704067200000000000 "X1" 1 100 40;
    mkLine "O2" "a@x.com" 1704067200000000000 1704067200000000000 "X1" 1 100 40 ].

(** The value column of a customer type [c] over the months of [orders]. *)
Definition cohort_column (value : list Order.row -> Z) (orders : list Order.row)
    (c : string) : list Z :=
  map (fun m => value (filter (in_cohort m c) orders))
      (unique_Z (map Order.Month_Year orders)).

(** [~df['Order ID'].duplicated(keep='first')] on the lines [ls]. *)
Definition first_items (ls : list Line) : list bool :=
  map negb (duplicated (map OrderID ls)).

(** A numeric column after [df.loc[mask, col] += 15]. *)
Definition with_fee (mask : list bool) (col : list Z) : list Z :=
  zip_with (fun (b : bool) z => if b then z + 15 else z) mask col.

Definition line_profit (l : Line) : Z := (UnitPrice l - UnitCost l) * LQTY l.

Definition product_of (ls : list Line) (k : string) : Product.row :=
  let g := group_mask k (map LSKU ls) in
  let r := Zsum (take_rows g (with_fee (first_items ls) (map line_revenue ls))) in
  let p := Zsum (take_rows g (with_fee (first_items ls) (map line_profit ls))) in
  let n := Z.of_nat (List.length (take_rows g ls)) in
  Product.mk k (CInt (Zsum (map LQTY (take_rows g ls)))) r p
             (truediv (Zsum (map UnitPrice (take_rows g ls))) n)
             (truediv (Zsum (map UnitCost (take_rows g ls))) n)
             (truediv p r).

Definition revenue_desc (a b : Product.row) : bool :=
  Product.Revenue b <=? Product.Revenue a.

Definition products_of (ls : list Line) : list Product.row :=
  sort_by revenue_desc (map (product_of ls) (unique_strings (map LSKU ls))).

(** The frame that [analyse_product_sales] leaves behind. *)
Definition frame_after_products (ls : list Line) : DataFrame :=
  frame_of ls
    (Some (map CInt (with_fee (first_items ls) (map line_revenue ls))))
    (Some (map CInt (with_fee (first_items ls) (map line_profit ls))))
    (Some (first_items ls)).

(** The number of distinct order ids of a table. *)
Definition distinct_orders (ls : list Line) : Z :=
  Z.of_nat (List.length (unique_strings (map OrderID ls))).

Fixpoint running_from (acc : Z) (l : list Z) : list Z :=
  match l with
  | [] => []
  | x :: r => (acc + x) :: running_from (acc + x) r
  end.

(** The running sum of a list of numbers. *)
Definition running_sum (l : list Z) : list Z := running_from 0 l.

(** The month of each line, and the monthly table row by row. *)
Definition periods (ls : list Line) : list Z :=
  map to_period_M (map DatePlaced ls).

Definition month_profit (ls : list Line) (m : Z) : Z :=
  Zsum (take_rows (map (Z.eqb m) (periods ls))
                  (with_fee (first_items ls) (map line_profit ls))).

Definition month_revenue (ls : list Line) (revenue_in : list Z) (m : Z) : Z :=
  Zsum (take_rows (map (Z.eqb m) (periods ls))
                  (with_fee (first_items ls) revenue_in)).

Definition sorted_months (ls : list Line) : list Z :=
  sort_by (fun a b => to_timestamp a <=? to_timestamp b) (unique_Z (periods ls)).

Definition months_of (ls : list Line) (revenue_in : list Z) : list MonthBucket.row :=
  map (fun mc => MonthBucket.mk (to_timestamp (fst mc))
                                (CInt (month_profit ls (fst mc)))
                                (CInt (month_revenue ls revenue_in (fst mc)))
                                (CInt (snd mc)))
      (combine (sorted_months ls)
               (running_sum (map (month_profit ls) (sorted_months ls)))).

(** [df_sorted], restricted to the three columns the function reads. *)
Definition df_sorted (ls : list Line) : list (string * Z * string) :=
  sort_by email_date_le (map (fun l => (LEmail l, DatePlaced l, LSKU l)) ls).

Definition is_first_purchase (ls : list Line) : list bool :=
  map negb (duplicated (map (fun r => fst (fst r)) (df_sorted ls))).

(** The SKUs of the lines flagged as first and as repeat purchases. *)
Definition first_purchase_skus (ls : list Line) : list string :=
  map snd (take_rows (is_first_purchase ls) (df_sorted ls)).

Definition repeat_purchase_skus (ls : list Line) : list string :=
  map snd (take_rows (map negb (is_first_purchase ls)) (df_sorted ls)).

Definition first_count_desc (a b : Affinity.row) : bool :=
  Affinity.First_Purchase_Count b <=? Affinity.First_Purchase_Count a.

Definition affinity_of (ls : list Line) : list Affinity.row :=
  sort_by first_count_desc
          (merge_counts (value_counts (first_purchase_skus ls))
                        (value_counts (repeat_purchase_skus ls))).

Definition affinity_row (ls : list Line) (k : string) : Affinity.row :=
  let f := count_of k (first_purchase_skus ls) in
  let r := count_of k (repeat_purchase_skus ls) in
  Affinity.mk k f r (truediv r f).

(** The Revenue column as [analyse_product_sales] leaves it on the shared
    frame: line revenue, the fee already added on first items. *)
Definition revenue_after_products (ls : list Line) : list Z :=
  with_fee (first_items ls) (map line_revenue ls).

Definition frame_after_months (ls : list Line) : DataFrame :=
  frame_of ls
    (Some (map CInt (with_fee (first_items ls) (revenue_after_products ls))))
    (Some (map CInt (with_fee (first_items ls) (map line_profit ls))))
    (Some (first_items ls)).

(** One order of one line: quantity 1 at price 100 and cost 40. *)
Definition one_order : list Line :=
  [ mkLine "O1" "a@x.com" 1704067200000000000 1704067200000000000 "X1" 1 100 40 ].



(** One customer whose only order has two lines, SKU "A" and SKU "B". *)
Definition two_line_first_order : list Line :=
  [ mkLine "O1" "a@x.com" 1704067200000000000 1704067200000000000 "A" 1 100 40;
    mkLine "O1" "a@x.com" 1704067200000000000 1704067200000000000 "B" 1 50 20 ].








(** A parsed file of one line whose QTY is the text "two". *)
Definition text_quantity : list RawLine :=
  [ mkRaw "O1" "a@x.com" 1704067200000000000 1704067200000000000 "X1"
          (CStr "two") (CInt 100) (CInt 40) ].

(** Each element of the list stands in [R] to its successor. *)
Fixpoint adjacent {A} (R : A -> A -> Prop) (l : list A) : Prop :=
  match l with
  | x :: (y :: _) as r => R x y /\ adjacent R r
  | _ => True
  end.

(** The first line of each order, in file order: the lines that
    [Is_First_Item] flags. *)
Definition first_lines (ls : list Line) : list Line :=
  take_rows (first_items ls) ls.

(** The lines of a SKU and the lines of a month. *)
Definition sku_lines (ls : list Line) (k : string) : list Line :=
  filter (fun l => (k =? LSKU l)%string) ls.

Definition month_lines (ls : list Line) (m : Z) : list Line :=
  filter (fun l => m =? to_period_M (DatePlaced l)) ls.

(** ** The tables as the 64-bit arithmetic computes them

    The readings above are written with exact sums and products.  The
    program computes in [int64]; the readings below follow it operation by
    operation, and agree with the exact ones on a table that is
    [int64_safe]. *)

Definition line_revenue64 (l : Line) : Z := wrap (LQTY l * UnitPrice l).
Definition line_cost64 (l : Line) : Z := wrap (UnitCost l * LQTY l).
Definition line_profit64 (l : Line) : Z :=
  wrap (wrap (UnitPrice l - UnitCost l) * LQTY l).

Definition order_of64 (ls : list Line) (k : string) : Order.row :=
  let g := order_lines ls k in
  let revenue := wrap (int64_sum (map line_revenue64 g) + 15) in
  let cost := int64_sum (map line_cost64 g) in
  Order.mk k (first "" (map LEmail g)) (first 0 (map DatePlaced g))
           revenue cost (wrap (revenue - cost)) "" 0.

Definition sorted_orders64 (ls : list Line) : list Order.row :=
  sort_by date_le (map (order_of64 ls) (unique_strings (map OrderID ls))).

Definition orders_of64 (ls : list Line) : list Order.row :=
  map (classified (sorted_orders64 ls)) (sorted_orders64 ls).

Definition with_fee64 (mask : list bool) (col : list Z) : list Z :=
  zip_with (fun (b : bool) z => if b then wrap (z + 15) else z) mask col.

Definition product_of64 (ls : list Line) (k : string) : Product.row :=
  let g := group_mask k (map LSKU ls) in
  let r := int64_sum (take_rows g (with_fee64 (first_items ls)
                                              (map line_revenue64 ls))) in
  let p := int64_sum (take_rows g (with_fee64 (first_items ls)
                                              (map line_profit64 ls))) in
  let n := Z.of_nat (List.length (take_rows g ls)) in
  Product.mk k (CInt (int64_sum (map LQTY (take_rows g ls)))) r p
             (truediv (Zsum (map UnitPrice (take_rows g ls))) n)
             (truediv (Zsum (map UnitCost (take_rows g ls))) n)
             (truediv p r).

Definition products_of64 (ls : list Line) : list Product.row :=
  sort_by revenue_desc (map (product_of64 ls) (unique_strings (map LSKU ls))).

Definition frame_after_products64 (ls : list Line) : DataFrame :=
  frame_of ls
    (Some (map CInt (with_fee64 (first_items ls) (map line_revenue64 ls))))
    (Some (map CInt (with_fee64 (first_items ls) (map line_profit64 ls))))
    (Some (first_items ls)).

Fixpoint running64_from (acc : Z) (l : list Z) : list Z :=
  match l with
  | [] => []
  | x :: r => wrap (acc + x) :: running64_from (wrap (acc + x)) r
  end.

(** The running sum as [cumsum] computes it. *)
Definition running64 (l : list Z) : list Z :=
  match l with
  | [] => []
  | x :: r => x :: running64_from x r
  end.

Definition month_profit64 (ls : list Line) (m : Z) : Z :=
  int64_sum (take_rows (map (Z.eqb m) (periods ls))
                       (with_fee64 (first_items ls) (map line_profit64 ls))).

Definition month_revenue64 (ls : list Line) (revenue_in : list Z) (m : Z) : Z :=
  int64_sum (take_rows (map (Z.eqb m) (periods ls))
                       (with_fee64 (first_items ls) revenue_in)).

Definition months_of64 (ls : list Line) (revenue_in : list Z)
  : list MonthBucket.row :=
  map (fun mc => MonthBucket.mk (to_timestamp (fst mc))
                                (CInt (month_profit64 ls (fst mc)))
                                (CInt (month_revenue64 ls revenue_in (fst mc)))
                                (CInt (snd mc)))
      (combine (sorted_months ls)
               (running64 (map (month_profit64 ls) (sorted_months ls)))).

(** The sum of the absolute values of a column. *)
Definition Zabs_sum (l : list Z) : Z := Zsum (map Z.abs l).

(** What a line can contribute, in absolute value, to any number the program
    computes: its quantity, prices, revenue and cost, and the fee twice. *)
Definition magnitude (l : Line) : Z :=
  Z.abs (LQTY l) + Z.abs (UnitPrice l) + Z.abs (UnitCost l)
  + Z.abs (LQTY l * UnitPrice l) + Z.abs (UnitCost l * LQTY l) + 30.

(** A table of integers small enough that no [int64] operation of the program
    wraps around: the magnitudes of its lines add up to at most
    [max_int64]. *)
Definition int64_safe (ls : list Line) : Prop :=
  Zsum (map magnitude ls) <= max_int64.







(* ================================================================== *)
(** * Facts about the list operations *)

Lemma zip_with_map {X A B C} (f : A -> B -> C) (g : X -> A) (h : X -> B) xs :
  zip_with f (map g xs) (map h xs) = map (fun x => f (g x) (h x)) xs.
Proof.
  unfold zip_with. induction xs as [|x xs IH]; simpl; [reflexivity|].
  now rewrite IH.
Qed.

Lemma zip_with_length {A B C} (f : A -> B -> C) a b :
  List.length a = List.length b -> List.length (zip_with f a b) = List.length a.
Proof.
  intros H. unfold zip_with. rewrite length_map, length_combine. lia.
Qed.

Lemma take_rows_map {A B} (f : A -> B) mask l :
  take_rows mask (map f l) = map f (take_rows mask l).
Proof.
  revert l. induction mask as [|b m IH]; intros [|x l]; simpl; try reflexivity.
  destruct b; simpl; now rewrite IH.
Qed.

Lemma take_rows_filter {X A} (t : X -> bool) (f : X -> A) xs :
  take_rows (map t xs) (map f xs) = map f (filter t xs).
Proof.
  induction xs as [|x xs IH]; simpl; [reflexivity|].
  destruct (t x); simpl; now rewrite IH.
Qed.

Lemma take_rows_In {A} mask (l : list A) x : In x (take_rows mask l) -> In x l.
Proof.
  revert l. induction mask as [|b m IH]; intros [|y l]; simpl; try tauto.
  destruct b; simpl; intros H; [destruct H as [H|H]; [now left|]|];
    right; now apply IH.
Qed.

Lemma Zsum_app a b : Zsum (a ++ b) = Zsum a + Zsum b.
Proof. induction a as [|x a IH]; simpl; lia. Qed.

Lemma Zsum_perm a b : Permutation a b -> Zsum a = Zsum b.
Proof. induction 1; simpl; lia. Qed.

Lemma Zsum_map_perm {A} (f : A -> Z) a b :
  Permutation a b -> Zsum (map f a) = Zsum (map f b).
Proof. intros H. apply Zsum_perm. now apply Permutation_map. Qed.

Lemma Zsum_map_add {A} (f g : A -> Z) l :
  Zsum (map (fun x => f x + g x) l) = Zsum (map f l) + Zsum (map g l).
Proof. induction l as [|x l IH]; simpl; lia. Qed.

Lemma Zsum_map_const {A} (c : Z) (l : list A) :
  Zsum (map (fun _ => c) l) = c * Z.of_nat (List.length l).
Proof. induction l as [|x l IH]; simpl List.length; simpl Zsum; lia. Qed.

(** ** Sorting *)

Lemma insert_by_perm {A} (le : A -> A -> bool) x l :
  Permutation (insert_by le x l) (x :: l).
Proof.
  induction l as [|y l IH]; simpl; [reflexivity|].
  destruct (le x y); [reflexivity|].
  rewrite IH. apply perm_swap.
Qed.

Lemma sort_by_perm {A} (le : A -> A -> bool) l : Permutation (sort_by le l) l.
Proof.
  induction l as [|x l IH]; simpl; [constructor|].
  rewrite insert_by_perm. now constructor.
Qed.

Lemma sort_by_In {A} (le : A -> A -> bool) l x : In x (sort_by le l) <-> In x l.
Proof.
  split; apply Permutation_in;
    [apply sort_by_perm | apply Permutation_sym, sort_by_perm].
Qed.

Lemma sort_by_length {A} (le : A -> A -> bool) l :
  List.length (sort_by le l) = List.length l.
Proof. apply Permutation_length, sort_by_perm. Qed.

Lemma filter_perm {A} (t : A -> bool) a b :
  Permutation a b -> Permutation (filter t a) (filter t b).
Proof.
  induction 1; simpl.
  - constructor.
  - destruct (t x); [now constructor | assumption].
  - destruct (t x), (t y); try reflexivity. apply perm_swap.
  - etransitivity; eassumption.
Qed.

Lemma unique_strings_In l x : In x (unique_strings l) <-> In x l.
Proof. unfold unique_strings. rewrite sort_by_In. apply nodup_In. Qed.

Lemma unique_strings_NoDup l : NoDup (unique_strings l).
Proof.
  unfold unique_strings.
  eapply Permutation_NoDup; [apply Permutation_sym, sort_by_perm|].
  apply NoDup_nodup.
Qed.

Lemma unique_Z_In l x : In x (unique_Z l) <-> In x l.
Proof. unfold unique_Z. rewrite sort_by_In. apply nodup_In. Qed.

Lemma unique_Z_NoDup l : NoDup (unique_Z l).
Proof.
  unfold unique_Z.
  eapply Permutation_NoDup; [apply Permutation_sym, sort_by_perm|].
  apply NoDup_nodup.
Qed.

(** ** Groups partition a column *)

Section Partition.

Variable K : Type.
Variable eqb : K -> K -> bool.
Hypothesis eqb_eq : forall a b, eqb a b = true <-> a = b.

Lemma Zsum_indicator (a : K) (v : Z) ks :
  NoDup ks -> In a ks ->
  Zsum (map (fun k => if eqb k a then v else 0) ks) = v.
Proof.
  induction 1 as [|k ks Hk Hnd IH]; simpl; [tauto|].
  intros [->|Hin].
  - replace (eqb a a) with true by (symmetry; now apply eqb_eq).
    assert (E : Zsum (map (fun k => if eqb k a then v else 0) ks) = 0).
    { clear IH Hnd. induction ks as [|k ks IH]; simpl; [reflexivity|].
      destruct (eqb k a) eqn:Hka.
      - apply eqb_eq in Hka. subst. exfalso. apply Hk. now left.
      - rewrite IH; [reflexivity|]. intros H. apply Hk. now right. }
    lia.
  - destruct (eqb k a) eqn:Hka.
    + apply eqb_eq in Hka. subst. contradiction.
    + rewrite IH by assumption. lia.
Qed.

Lemma Zsum_indicator_absent (a : K) (v : Z) ks :
  ~ In a ks -> Zsum (map (fun k => if eqb k a then v else 0) ks) = 0.
Proof.
  induction ks as [|k ks IH]; simpl; [reflexivity|]. intros H.
  destruct (eqb k a) eqn:Hka.
  - apply eqb_eq in Hka. subst. exfalso. apply H. now left.
  - rewrite IH; [reflexivity|]. intros Hin. apply H. now right.
Qed.

(** Summing the group sums over distinct keys that cover the key column
    gives the sum of the whole column. *)
Lemma Zsum_groups (ks keys : list K) (col : list Z) :
  NoDup ks -> incl keys ks -> List.length keys = List.length col ->
  Zsum (map (fun k => Zsum (take_rows (map (eqb k) keys) col)) ks) = Zsum col.
Proof.
  intros Hnd. revert col.
  induction keys as [|a keys IH]; intros [|v col] Hincl Hlen;
    simpl in Hlen; try discriminate.
  - simpl. clear. induction ks; simpl; lia.
  - assert (Ha : In a ks) by (apply Hincl; now left).
    assert (Hincl' : incl keys ks) by (intros x Hx; apply Hincl; now right).
    change (Zsum (v :: col)) with (v + Zsum col).
    rewrite <- (IH col Hincl') by lia.
    rewrite <- (Zsum_indicator a v Hnd Ha) at 1.
    rewrite <- Zsum_map_add. f_equal. apply map_ext. intros k. simpl.
    destruct (eqb k a); simpl; lia.
Qed.

End Partition.

Lemma string_eqb_eq (a b : string) : (a =? b)%string = true <-> a = b.
Proof. apply String.eqb_eq. Qed.

(** Group sums by a string key over distinct covering keys. *)
Lemma Zsum_string_groups (keys : list string) (col : list Z) :
  List.length keys = List.length col ->
  Zsum (map (fun k => Zsum (take_rows (group_mask k keys) col)) (unique_strings keys))
  = Zsum col.
Proof.
  intros H. unfold group_mask.
  apply (Zsum_groups String.eqb string_eqb_eq).
  - apply unique_strings_NoDup.
  - intros x Hx. now apply unique_strings_In.
  - exact H.
Qed.

(** ** First occurrences *)

Lemma first_occurrences_from seen l :
  let d := take_rows (map negb (duplicated_from seen l)) l in
  NoDup d /\ forall x, In x d <-> In x l /\ ~ In x seen.
Proof.
  revert seen. induction l as [|a l IH]; intros seen; simpl.
  - split; [constructor | tauto].
  - destruct (IH (a :: seen)) as [Hnd Hin].
    destruct (in_dec string_dec a seen) as [Ha|Ha]; simpl.
    + split; [assumption|]. intros x. rewrite Hin. simpl.
      split.
      * intros [H1 H2]. split; [now right | tauto].
      * intros [[->|H1] H2]; [contradiction|]. split; [assumption|].
        intros [->|H3]; contradiction.
    + split.
      * constructor; [|assumption]. rewrite Hin. simpl. tauto.
      * intros x. rewrite Hin. simpl. split.
        -- intros [->|[H1 H2]]; [tauto|]. split; [now right | tauto].
        -- intros [[->|H1] H2]; [now left|].
           destruct (string_dec a x) as [->|Hne]; [now left|]. right.
           split; [assumption|]. intros [H3|H3]; contradiction.
  Qed.

Lemma first_occurrences_perm l :
  Permutation (take_rows (map negb (duplicated l)) l) (unique_strings l).
Proof.
  destruct (first_occurrences_from [] l) as [Hnd Hin]. fold (duplicated l) in *.
  apply NoDup_Permutation; [assumption | apply unique_strings_NoDup|].
  intros x. rewrite Hin, unique_strings_In. simpl. tauto.
Qed.

Lemma duplicated_from_length seen l :
  List.length (duplicated_from seen l) = List.length l.
Proof. revert seen. induction l; intros; simpl; auto. Qed.

Lemma take_rows_length_eq {A B} mask (a : list A) (b : list B) :
  List.length a = List.length b ->
  List.length (take_rows mask a) = List.length (take_rows mask b).
Proof.
  revert a b. induction mask as [|m mask IH]; intros [|x a] [|y b] H;
    simpl in *; try discriminate; try reflexivity.
  destruct m; simpl; auto.
Qed.

(** Adding [n] on the rows of a mask adds [n] once per selected row. *)
Lemma Zsum_add_where mask (col : list Z) n :
  List.length mask = List.length col ->
  Zsum (zip_with (fun (b : bool) z => if b then z + n else z) mask col)
  = Zsum col + n * Z.of_nat (List.length (take_rows mask col)).
Proof.
  unfold zip_with. revert col.
  induction mask as [|b mask IH]; intros [|z col] H; simpl in H;
    try discriminate; [simpl; lia|].
  simpl combine. simpl map. simpl Zsum. rewrite IH by lia.
  destruct b; simpl take_rows; simpl List.length; lia.
Qed.

(** The fee added on the first items of a column comes to [n] per distinct
    order. *)
Lemma Zsum_first_items ids (col : list Z) n :
  List.length ids = List.length col ->
  Zsum (zip_with (fun (b : bool) z => if b then z + n else z)
                 (map negb (duplicated ids)) col)
  = Zsum col + n * Z.of_nat (List.length (unique_strings ids)).
Proof.
  intros H. rewrite Zsum_add_where.
  - rewrite <- (Permutation_length (first_occurrences_perm ids)).
    now rewrite (take_rows_length_eq _ col ids).
  - unfold duplicated. now rewrite length_map, duplicated_from_length.
Qed.

(* ================================================================== *)
(** * Facts about the 64-bit arithmetic *)

(** A result within the range is kept as it is. *)
Lemma wrap_small z : min_int64 <= z <= max_int64 -> wrap z = z.
Proof.
  unfold wrap, min_int64, max_int64.
  change (2 ^ 63) with 9223372036854775808.
  change (2 ^ 64) with 18446744073709551616.
  intros H. rewrite Z.mod_small; lia.
Qed.

Lemma wrap_abs z : Z.abs z <= max_int64 -> wrap z = z.
Proof.
  intros H. apply wrap_small. revert H. unfold min_int64, max_int64.
  change (2 ^ 63) with 9223372036854775808. lia.
Qed.

Lemma Zabs_sum_cons x l : Zabs_sum (x :: l) = Z.abs x + Zabs_sum l.
Proof. reflexivity. Qed.

Lemma Zabs_sum_nonneg l : 0 <= Zabs_sum l.
Proof.
  induction l as [|x l IH]; [apply Z.le_refl|]. rewrite Zabs_sum_cons. lia.
Qed.

Lemma Zsum_abs_le l : Z.abs (Zsum l) <= Zabs_sum l.
Proof.
  induction l as [|x l IH]; [apply Z.le_refl|].
  rewrite Zabs_sum_cons. change (Zsum (x :: l)) with (x + Zsum l). lia.
Qed.

Lemma Zabs_sum_In z l : In z l -> Z.abs z <= Zabs_sum l.
Proof.
  induction l as [|x l IH]; [intros []|]. rewrite Zabs_sum_cons.
  pose proof (Zabs_sum_nonneg l).
  intros [->|H']; [lia|]. specialize (IH H'). lia.
Qed.

Lemma Zabs_sum_take_rows mask l : Zabs_sum (take_rows mask l) <= Zabs_sum l.
Proof.
  revert l. induction mask as [|b mask IH]; intros [|x l];
    try apply Zabs_sum_nonneg.
  specialize (IH l). cbn [take_rows].
  destruct b; rewrite ?Zabs_sum_cons; lia.
Qed.

Lemma Zabs_sum_filter {A} (f : A -> Z) (t : A -> bool) l :
  Zabs_sum (map f (filter t l)) <= Zabs_sum (map f l).
Proof.
  rewrite <- take_rows_filter. apply Zabs_sum_take_rows.
Qed.

Lemma Zabs_sum_perm a b : Permutation a b -> Zabs_sum a = Zabs_sum b.
Proof. intros H. unfold Zabs_sum. now apply Zsum_map_perm. Qed.

Lemma Zsum_map_le {A} (f g : A -> Z) l :
  (forall x, In x l -> f x <= g x) -> Zsum (map f l) <= Zsum (map g l).
Proof.
  induction l as [|x l IH]; intros H; [apply Z.le_refl|].
  cbn [map]. change (Zsum (?a :: ?r)) with (a + Zsum r).
  specialize (H x (or_introl eq_refl)) as Hx.
  specialize (IH (fun y Hy => H y (or_intror Hy))). lia.
Qed.

(** Adding the fee on some rows raises the absolute values by at most the fee
    per row. *)
Lemma Zabs_sum_with_fee mask col :
  Zabs_sum (with_fee mask col) <= Zabs_sum col + 15 * Z.of_nat (List.length col).
Proof.
  unfold with_fee, zip_with. revert col.
  induction mask as [|b mask IH]; intros [|z col].
  - apply Z.le_refl.
  - pose proof (Zabs_sum_nonneg (z :: col)). change (Zabs_sum (map _ _)) with 0. lia.
  - apply Z.le_refl.
  - specialize (IH col). cbn [combine map List.length fst snd].
    rewrite !Zabs_sum_cons. destruct b; lia.
Qed.

(** On a column with room for the fee, the 64-bit fee addition is exact. *)
Lemma with_fee64_exact mask col :
  Zabs_sum col + 15 * Z.of_nat (List.length col) <= max_int64 ->
  with_fee64 mask col = with_fee mask col.
Proof.
  unfold with_fee64, with_fee, zip_with. revert col.
  induction mask as [|b mask IH]; intros [|z col] H; try reflexivity.
  cbn [combine map fst snd]. rewrite Zabs_sum_cons in H.
  cbn [List.length] in H. pose proof (Zabs_sum_nonneg col).
  rewrite IH by lia. destruct b; [|reflexivity].
  rewrite wrap_abs by lia. reflexivity.
Qed.

Lemma fold_wrap_exact l a :
  Z.abs a + Zabs_sum l <= max_int64 ->
  fold_left (fun acc y => wrap (acc + y)) l a = a + Zsum l.
Proof.
  revert a. induction l as [|x l IH]; intros a H; cbn [fold_left].
  - simpl. lia.
  - rewrite Zabs_sum_cons in H. pose proof (Zabs_sum_nonneg l).
    rewrite wrap_abs by lia. rewrite IH by lia.
    change (Zsum (x :: l)) with (x + Zsum l). lia.
Qed.

(** A column whose absolute values add up within the range is summed
    exactly. *)
Lemma int64_sum_exact l : Zabs_sum l <= max_int64 -> int64_sum l = Zsum l.
Proof.
  destruct l as [|x l]; [reflexivity|]. intros H. unfold int64_sum.
  rewrite Zabs_sum_cons in H. now apply fold_wrap_exact.
Qed.

Lemma running64_from_exact l a :
  Z.abs a + Zabs_sum l <= max_int64 -> running64_from a l = running_from a l.
Proof.
  revert a. induction l as [|x l IH]; intros a H; [reflexivity|].
  cbn [running64_from running_from]. rewrite Zabs_sum_cons in H.
  pose proof (Zabs_sum_nonneg l). rewrite wrap_abs by lia.
  rewrite IH by lia. reflexivity.
Qed.

Lemma running64_exact l : Zabs_sum l <= max_int64 -> running64 l = running_sum l.
Proof.
  destruct l as [|x l]; [reflexivity|]. intros H.
  rewrite Zabs_sum_cons in H. unfold running64, running_sum.
  change (running_from 0 (x :: l)) with (x :: running_from x l).
  now rewrite running64_from_exact.
Qed.

(** ** Wrapped results are exact results modulo 2^64 *)











(* ================================================================== *)
(** * Facts about the error monad and cell arithmetic *)

Lemma mapM_ok {A B C} (f : B -> result C) (g : A -> B) (h : A -> C) l :
  (forall x, In x l -> f (g x) = Ok (h x)) ->
  mapM f (map g l) = Ok (map h l).
Proof.
  induction l as [|x l IH]; intros H; simpl; [reflexivity|].
  rewrite H by now left. simpl.
  rewrite IH by (intros y Hy; apply H; now right). reflexivity.
Qed.

Lemma mapM_ok_id {A C} (f : A -> result C) (h : A -> C) l :
  (forall x, In x l -> f x = Ok (h x)) -> mapM f l = Ok (map h l).
Proof.
  intros H. rewrite <- (map_id l) at 1. now apply mapM_ok.
Qed.


Lemma series_mul_ints {X} (f g : X -> Z) xs :
  series_mul (map (fun x => CInt (f x)) xs) (map (fun x => CInt (g x)) xs)
  = Ok (map (fun x => CInt (wrap (f x * g x))) xs).
Proof.
  unfold series_mul. induction xs as [|x xs IH]; [reflexivity|].
  cbn [map zipWithM py_mul bind]. rewrite IH. reflexivity.
Qed.

Lemma series_sub_ints {X} (f g : X -> Z) xs :
  series_sub (map (fun x => CInt (f x)) xs) (map (fun x => CInt (g x)) xs)
  = Ok (map (fun x => CInt (wrap (f x - g x))) xs).
Proof.
  unfold series_sub. induction xs as [|x xs IH]; [reflexivity|].
  cbn [map zipWithM py_sub bind]. rewrite IH. reflexivity.
Qed.

Lemma sum_from_ints a l :
  sum_from (CInt a) (map CInt l)
  = Ok (CInt (fold_left (fun acc y => wrap (acc + y)) l a)).
Proof.
  revert a. induction l as [|x l IH]; intros a; [reflexivity|].
  cbn [map sum_from py_add bind fold_left]. apply IH.
Qed.

Lemma series_sum_ints l : series_sum (map CInt l) = Ok (CInt (int64_sum l)).
Proof. destruct l as [|x l]; [reflexivity | apply sum_from_ints]. Qed.

Lemma series_sum_ints_map {X} (f : X -> Z) xs :
  series_sum (map (fun x => CInt (f x)) xs) = Ok (CInt (int64_sum (map f xs))).
Proof. rewrite <- series_sum_ints. now rewrite map_map. Qed.

Lemma add_where_ints mask (col : list Z) n :
  add_where mask (map CInt col) n
  = Ok (map CInt (zip_with (fun (b : bool) z => if b then wrap (z + n) else z)
                           mask col)).
Proof.
  unfold add_where, zip_with. revert col.
  induction mask as [|b mask IH]; intros [|z col]; try reflexivity.
  cbn [map zipWithM combine fst snd]. rewrite IH.
  destruct b; reflexivity.
Qed.

Lemma mapM_num_ints l : mapM num (map CInt l) = Ok l.
Proof.
  induction l as [|x l IH]; [reflexivity|].
  cbn [map mapM num bind]. now rewrite IH.
Qed.

Lemma series_lookup_map (h : string -> Z) keys e :
  In e keys -> series_lookup (map (fun k => (k, h k)) keys) e = Ok (h e).
Proof.
  unfold series_lookup. induction keys as [|k keys IH]; simpl; [tauto|].
  intros H. destruct (String.eqb_spec k e) as [->|Hne]; [reflexivity|].
  destruct H as [H|H]; [contradiction|]. now apply IH.
Qed.

(* ================================================================== *)
(** * The frame of a table of order lines *)

Lemma load_lines_frame ls : load_lines ls = frame_of ls None None None.
Proof.
  unfold load_lines, load_data, frame_of. now rewrite !map_map.
Qed.

(** ** Row-wise reading of the Order Aggregator *)

Lemma aggregate_order_lines ls k :
  aggregate_order (map OrderID ls) (map LEmail ls) (map DatePlaced ls)
                  (map (fun l => CInt (line_revenue64 l)) ls)
                  (map (fun l => CInt (UnitCost l)) ls)
                  (map (fun l => CInt (LQTY l)) ls) k
  = Ok (let g := order_lines ls k in
        mkAgg k (first "" (map LEmail g)) (first 0 (map DatePlaced g))
              (CInt (int64_sum (map line_revenue64 g)))
              (CInt (int64_sum (map line_cost64 g)))).
Proof.
  unfold aggregate_order, group_mask. rewrite map_map.
  rewrite !take_rows_filter. fold (order_lines ls k).
  rewrite series_sum_ints_map. cbn [bind].
  rewrite series_mul_ints. cbn [bind].
  rewrite series_sum_ints_map. reflexivity.
Qed.

Lemma first_purchase_dates_lookup orders o :
  In o orders ->
  series_lookup (first_purchase_dates orders) (Order.Email o)
  = Ok (earliest orders (Order.Email o)).
Proof.
  intros H. unfold first_purchase_dates.
  rewrite (series_lookup_map
             (fun e => Zmin_list (take_rows (group_mask e (map Order.Email orders))
                                            (map Order.Date_placed orders)))).
  - unfold group_mask, earliest. now rewrite map_map, take_rows_filter.
  - apply unique_strings_In. now apply in_map.
Qed.

Lemma unique_strings_nonempty l : l <> [] -> unique_strings l <> [].
Proof.
  destruct l as [|x l]; [congruence|]. intros _ E.
  assert (H : In x (unique_strings (x :: l)))
    by (apply unique_strings_In; now left).
  rewrite E in H. exact H.
Qed.

(** A table with at least one line has at least one order. *)
Lemma sorted_orders64_nonempty ls : ls <> [] -> sorted_orders64 ls <> [].
Proof.
  intros Hne E. apply (f_equal (@List.length _)) in E.
  unfold sorted_orders64 in E. rewrite sort_by_length, length_map in E.
  apply length_zero_iff_nil in E. revert E. apply unique_strings_nonempty.
  destruct ls; [congruence | discriminate].
Qed.

(** The Order Aggregator on a table with at least one line, as the 64-bit
    arithmetic computes it. *)
Lemma analyse_data_frame64 ls r p f :
  ls <> [] ->
  analyse_data (frame_of ls r p f)
  = Ok (ensure_columns (unstack (fun g => Z.of_nat (List.length g)) (orders_of64 ls)),
        ensure_columns (unstack (fun g => int64_sum (map Order.Revenue g))
                                (orders_of64 ls)),
        orders_of64 ls,
        frame_of ls (Some (map (fun l => CInt (line_revenue64 l)) ls)) p f).
Proof.
  intros Hne.
  unfold analyse_data, frame_of. cbn [getitem Frame.QTY Frame.Unit_Price bind].
  rewrite series_mul_ints.
  change (map (fun x : Line => CInt (wrap (LQTY x * UnitPrice x))) ls)
    with (map (fun l => CInt (line_revenue64 l)) ls).
  cbn [getitem bind Frame.QTY Frame.Unit_Price Frame.Unit_Cost Frame.Order_ID
       Frame.Revenue Frame.Profit Frame.Is_First_Item Frame.SKU
       Frame.set_Revenue Frame.Email Frame.Date_placed Frame.Date_Completed].
  change (require_columns _ _) with (Ok tt). cbn [bind].
  rewrite (mapM_ok_id _ _ _ (fun k _ => aggregate_order_lines ls k)).
  cbn [bind].
  rewrite (mapM_ok add_shipping_and_profit _ (order_of64 ls))
    by (intros; reflexivity).
  cbn [bind]. fold date_le. fold (sorted_orders64 ls).
  pose proof (sorted_orders64_nonempty Hne) as Hs.
  destruct (sorted_orders64 ls) as [|o os] eqn:E; [congruence|].
  rewrite <- E.
  rewrite (mapM_ok_id _ (classified (sorted_orders64 ls))).
  - reflexivity.
  - intros o' Ho. unfold classify.
    rewrite (first_purchase_dates_lookup _ _ Ho). reflexivity.
Qed.

(** ** Tables on which the 64-bit arithmetic is exact *)

Lemma magnitude_sum ls :
  Zsum (map magnitude ls)
  = Zabs_sum (map LQTY ls) + Zabs_sum (map UnitPrice ls)
    + Zabs_sum (map UnitCost ls) + Zabs_sum (map line_revenue ls)
    + Zabs_sum (map line_cost ls) + 30 * Z.of_nat (List.length ls).
Proof.
  induction ls as [|l ls IH]; [reflexivity|].
  cbn [map List.length]. rewrite !Zabs_sum_cons.
  change (Zsum (magnitude l :: map magnitude ls))
    with (magnitude l + Zsum (map magnitude ls)).
  rewrite IH. unfold magnitude, line_revenue, line_cost. lia.
Qed.

Lemma line_profit_abs l :
  Z.abs (line_profit l) <= Z.abs (line_revenue l) + Z.abs (line_cost l).
Proof.
  unfold line_profit, line_revenue, line_cost.
  replace ((UnitPrice l - UnitCost l) * LQTY l)
    with (LQTY l * UnitPrice l - UnitCost l * LQTY l) by ring.
  lia.
Qed.

Lemma Zabs_sum_line_profit ls :
  Zabs_sum (map line_profit ls)
  <= Zabs_sum (map line_revenue ls) + Zabs_sum (map line_cost ls).
Proof.
  induction ls as [|l ls IH]; [apply Z.le_refl|].
  cbn [map]. rewrite !Zabs_sum_cons. pose proof (line_profit_abs l). lia.
Qed.

(** The bounds that [int64_safe] gives on the columns of a table. *)
Ltac safe_facts ls :=
  pose proof (magnitude_sum ls);
  pose proof (Zabs_sum_line_profit ls);
  pose proof (Zabs_sum_nonneg (map LQTY ls));
  pose proof (Zabs_sum_nonneg (map UnitPrice ls));
  pose proof (Zabs_sum_nonneg (map UnitCost ls));
  pose proof (Zabs_sum_nonneg (map line_revenue ls));
  pose proof (Zabs_sum_nonneg (map line_cost ls));
  pose proof (Zabs_sum_nonneg (map line_profit ls));
  pose proof (Nat2Z.is_nonneg (List.length ls)).

Lemma length_pos_nonempty {A} (l : list A) : l <> [] -> 1 <= Z.of_nat (List.length l).
Proof. destruct l; [congruence|]. intros _. simpl List.length. lia. Qed.

Section Safe.

Variable ls : list Line.
Hypothesis safe : int64_safe ls.

Lemma line_revenue64_exact l : In l ls -> line_revenue64 l = line_revenue l.
Proof.
  intros Hl. unfold line_revenue64.
  change (LQTY l * UnitPrice l) with (line_revenue l). apply wrap_abs.
  pose proof (Zabs_sum_In _ _ (in_map line_revenue _ _ Hl)).
  safe_facts ls. unfold int64_safe in safe. lia.
Qed.

Lemma line_cost64_exact l : In l ls -> line_cost64 l = line_cost l.
Proof.
  intros Hl. unfold line_cost64.
  change (UnitCost l * LQTY l) with (line_cost l). apply wrap_abs.
  pose proof (Zabs_sum_In _ _ (in_map line_cost _ _ Hl)).
  safe_facts ls. unfold int64_safe in safe. lia.
Qed.

Lemma line_profit64_exact l : In l ls -> line_profit64 l = line_profit l.
Proof.
  intros Hl. unfold line_profit64.
  pose proof (Zabs_sum_In _ _ (in_map UnitPrice _ _ Hl)).
  pose proof (Zabs_sum_In _ _ (in_map UnitCost _ _ Hl)).
  pose proof (Zabs_sum_In _ _ (in_map line_profit _ _ Hl)).
  safe_facts ls. unfold int64_safe in safe.
  rewrite (wrap_abs (UnitPrice l - UnitCost l)) by lia.
  change ((UnitPrice l - UnitCost l) * LQTY l) with (line_profit l).
  apply wrap_abs. lia.
Qed.

Lemma revenue_column_exact :
  map line_revenue64 ls = map line_revenue ls.
Proof. apply map_ext_in. intros l Hl. now apply line_revenue64_exact. Qed.

Lemma profit_column_exact :
  map line_profit64 ls = map line_profit ls.
Proof. apply map_ext_in. intros l Hl. now apply line_profit64_exact. Qed.

Lemma order_of64_exact k : ls <> [] -> order_of64 ls k = order_of ls k.
Proof.
  intros Hne. unfold order_of64, order_of. cbv zeta.
  assert (Hsub : forall l, In l (order_lines ls k) -> In l ls)
    by (intros l Hl; apply filter_In in Hl; tauto).
  rewrite (map_ext_in line_revenue64 line_revenue)
    by (intros l Hl; apply line_revenue64_exact; auto).
  rewrite (map_ext_in line_cost64 line_cost)
    by (intros l Hl; apply line_cost64_exact; auto).
  pose proof (Zabs_sum_filter line_revenue (fun l => (k =? OrderID l)%string) ls).
  pose proof (Zabs_sum_filter line_cost (fun l => (k =? OrderID l)%string) ls).
  fold (order_lines ls k) in *.
  pose proof (Zsum_abs_le (map line_revenue (order_lines ls k))).
  pose proof (Zsum_abs_le (map line_cost (order_lines ls k))).
  pose proof (length_pos_nonempty Hne).
  safe_facts ls. unfold int64_safe in safe.
  rewrite !int64_sum_exact by lia.
  rewrite (wrap_abs (Zsum (map line_revenue (order_lines ls k)) + 15)) by lia.
  rewrite wrap_abs by lia. reflexivity.
Qed.

Lemma orders_of64_exact : ls <> [] -> orders_of64 ls = orders_of ls.
Proof.
  intros Hne. unfold orders_of64, orders_of, sorted_orders64, sorted_orders.
  rewrite (map_ext (order_of64 ls) (order_of ls))
    by (intros k; now apply order_of64_exact).
  reflexivity.
Qed.

End Safe.

Lemma unstack_ext v1 v2 orders :
  (forall m t, v1 (filter (in_cohort m t) orders)
               = v2 (filter (in_cohort m t) orders)) ->
  unstack v1 orders = unstack v2 orders.
Proof.
  intros H. unfold unstack. f_equal. apply map_ext. intros t. f_equal.
  apply map_ext. intros m. specialize (H m t).
  destruct (filter (in_cohort m t) orders); [reflexivity | exact H].
Qed.

Lemma unique_strings_length_le l :
  (List.length (unique_strings l) <= List.length l)%nat.
Proof.
  unfold unique_strings. rewrite sort_by_length.
  apply NoDup_incl_length; [apply NoDup_nodup|].
  intros x Hx. now apply nodup_In in Hx.
Qed.

Lemma distinct_orders_le ls : distinct_orders ls <= Z.of_nat (List.length ls).
Proof.
  unfold distinct_orders.
  pose proof (unique_strings_length_le (map OrderID ls)) as H.
  rewrite length_map in H. lia.
Qed.

(** The absolute values of the group sums add up to at most those of the
    column. *)
Lemma Zabs_sum_string_groups (keys : list string) (col : list Z) :
  List.length keys = List.length col ->
  Zabs_sum (map (fun k => Zsum (take_rows (group_mask k keys) col))
                (unique_strings keys))
  <= Zabs_sum col.
Proof.
  intros H. unfold Zabs_sum at 2.
  rewrite <- (Zsum_string_groups keys (map Z.abs col)) by now rewrite length_map.
  unfold Zabs_sum. rewrite map_map. apply Zsum_map_le. intros k _.
  rewrite take_rows_map. apply Zsum_abs_le.
Qed.

Lemma Zabs_sum_Z_groups (keys : list Z) (col : list Z) :
  List.length keys = List.length col ->
  Zabs_sum (map (fun k => Zsum (take_rows (map (Z.eqb k) keys) col))
                (unique_Z keys))
  <= Zabs_sum col.
Proof.
  intros H. unfold Zabs_sum at 2.
  rewrite <- (@Zsum_groups _ Z.eqb Z.eqb_eq (unique_Z keys) keys (map Z.abs col)).
  - unfold Zabs_sum. rewrite map_map. apply Zsum_map_le. intros k _.
    rewrite take_rows_map. apply Zsum_abs_le.
  - apply unique_Z_NoDup.
  - intros x Hx. now apply unique_Z_In.
  - now rewrite length_map.
Qed.

Lemma Zabs_sum_map_add_fee {A} (f : A -> Z) l :
  Zabs_sum (map (fun x => f x + 15) l)
  <= Zabs_sum (map f l) + 15 * Z.of_nat (List.length l).
Proof.
  induction l as [|x l IH]; [apply Z.le_refl|].
  cbn [map List.length]. rewrite !Zabs_sum_cons. lia.
Qed.

(** The Revenue figures of the order table stay within the line revenues and
    one fee per order. *)
Lemma orders_of_revenue_bound ls :
  Zabs_sum (map Order.Revenue (orders_of ls))
  <= Zabs_sum (map line_revenue ls) + 15 * distinct_orders ls.
Proof.
  unfold orders_of. rewrite map_map. cbn [classified Order.Revenue].
  unfold sorted_orders.
  rewrite (Zabs_sum_perm (Permutation_map Order.Revenue (sort_by_perm date_le _))).
  rewrite map_map. cbn [order_of Order.Revenue].
  etransitivity; [apply Zabs_sum_map_add_fee|].
  fold (distinct_orders ls).
  pose proof (Zabs_sum_string_groups (map OrderID ls) (map line_revenue ls)) as H.
  rewrite !length_map in H. specialize (H eq_refl).
  rewrite (map_ext _ (fun k => Zsum (map line_revenue (order_lines ls k)))) in H.
  - lia.
  - intros k. unfold group_mask, order_lines.
    now rewrite map_map, take_rows_filter.
Qed.

(** The Order Aggregator on a table with at least one line on which the
    64-bit arithmetic is exact. *)
Lemma analyse_data_frame ls r p f :
  ls <> [] -> int64_safe ls ->
  analyse_data (frame_of ls r p f)
  = Ok (ensure_columns (unstack (fun g => Z.of_nat (List.length g)) (orders_of ls)),
        ensure_columns (unstack (fun g => Zsum (map Order.Revenue g)) (orders_of ls)),
        orders_of ls,
        frame_of ls (Some (map (fun l => CInt (LQTY l * UnitPrice l)) ls)) p f).
Proof.
  intros Hne Hs. rewrite (analyse_data_frame64 _ _ _ Hne).
  rewrite (orders_of64_exact Hs Hne).
  rewrite (unstack_ext (fun g => int64_sum (map Order.Revenue g))
                       (fun g => Zsum (map Order.Revenue g))).
  - rewrite (map_ext_in (fun l => CInt (line_revenue64 l))
                        (fun l => CInt (LQTY l * UnitPrice l)));
      [reflexivity|].
    intros l Hl. f_equal. now apply (line_revenue64_exact Hs).
  - intros m t. apply int64_sum_exact.
    pose proof (Zabs_sum_filter Order.Revenue (in_cohort m t) (orders_of ls)).
    pose proof (orders_of_revenue_bound ls).
    pose proof (distinct_orders_le ls).
    safe_facts ls. unfold int64_safe in Hs. lia.
Qed.

Lemma filter_key_NoDup (a : string) ks :
  NoDup ks -> In a ks -> filter (fun k => (k =? a)%string) ks = [a].
Proof.
  induction 1 as [|k ks Hk Hnd IH]; simpl; [tauto|].
  destruct (String.eqb_spec k a) as [->|Hne].
  - intros _. f_equal.
    clear IH Hnd. induction ks as [|k ks IH]; simpl; [reflexivity|].
    destruct (String.eqb_spec k a) as [->|Hne].
    + exfalso. apply Hk. now left.
    + apply IH. intros H. apply Hk. now right.
  - intros [H|H]; [contradiction | now apply IH].
Qed.

Lemma filter_map_comm {A B} (t : B -> bool) (g : A -> B) l :
  filter t (map g l) = map g (filter (fun x => t (g x)) l).
Proof.
  induction l as [|x l IH]; simpl; [reflexivity|].
  destruct (t (g x)); simpl; now rewrite IH.
Qed.



Lemma one_order_nonempty : one_order <> [].
Proof. discriminate. Qed.

Lemma one_order_safe : int64_safe one_order.
Proof. unfold int64_safe. vm_compute. discriminate. Qed.







(** ** Customer types *)

Lemma fold_left_min_le r x : fold_left Z.min r x <= x.
Proof.
  revert x. induction r as [|y r IH]; intros x; simpl; [lia|].
  specialize (IH (Z.min x y)). lia.
Qed.

Lemma fold_left_min_lower r x y : In y r -> fold_left Z.min r x <= y.
Proof.
  revert x. induction r as [|z r IH]; intros x; simpl; [tauto|].
  intros [->|H]; [|now apply IH].
  pose proof (fold_left_min_le r (Z.min x y)). lia.
Qed.

Lemma fold_left_min_In r x : fold_left Z.min r x = x \/ In (fold_left Z.min r x) r.
Proof.
  revert x. induction r as [|y r IH]; intros x; simpl; [now left|].
  destruct (IH (Z.min x y)) as [H|H]; [|now right; right].
  rewrite H. destruct (Z.min_spec x y) as [[_ ->]|[_ ->]]; [now left|].
  right. now left.
Qed.

Lemma Zmin_list_lower l y : In y l -> Zmin_list l <= y.
Proof.
  destruct l as [|x r]; simpl; [tauto|].
  intros [<-|H]; [apply fold_left_min_le | now apply fold_left_min_lower].
Qed.

Lemma Zmin_list_In l : l <> [] -> In (Zmin_list l) l.
Proof.
  destruct l as [|x r]; [congruence|]. intros _. simpl.
  destruct (fold_left_min_In r x) as [H|H]; [left; now rewrite H | now right].
Qed.

(** The earliest date of an email bounds the dates of its orders from below
    and is the date of one of them. *)
Lemma earliest_lower orders o :
  In o orders -> earliest orders (Order.Email o) <= Order.Date_placed o.
Proof.
  intros H. apply Zmin_list_lower. apply in_map. apply filter_In.
  split; [assumption | apply String.eqb_refl].
Qed.

Lemma earliest_attained orders o :
  In o orders ->
  exists o1, In o1 orders /\ Order.Email o1 = Order.Email o
             /\ Order.Date_placed o1 = earliest orders (Order.Email o).
Proof.
  intros H.
  assert (Hne : map Order.Date_placed
                    (filter (fun o' => (Order.Email o =? Order.Email o')%string) orders)
                <> []).
  { intros E. apply map_eq_nil in E.
    assert (Hin : In o (filter (fun o' => (Order.Email o =? Order.Email o')%string) orders))
      by (apply filter_In; split; [assumption | apply String.eqb_refl]).
    rewrite E in Hin. exact Hin. }
  apply Zmin_list_In in Hne. apply in_map_iff in Hne.
  destruct Hne as [o1 [Hd Ho1]]. apply filter_In in Ho1. destruct Ho1 as [Ho1 He].
  apply String.eqb_eq in He. exists o1. repeat split; auto.
Qed.

(** C4, counterexample.  A customer with two orders on the same earliest date
    gets two First-time rows, so "exactly one" fails. *)
Lemma C4_counterexample :
  exists count_data revenue_data order_data df',
    analyse_data (load_lines same_day_orders)
    = Ok (count_data, revenue_data, order_data, df')
    /\ In "a@x.com" (map LEmail same_day_orders)
    /\ ~ exactly_one_first_time order_data "a@x.com".
Proof.
  do 4 eexists. split; [vm_compute; reflexivity|].
  split; [now left|].
  intros [o [Ho [_ [_ Hother]]]].
  simpl in Ho. destruct Ho as [<-|[<-|[]]].
  - specialize (Hother _ (or_intror (or_introl eq_refl)) eq_refl).
    simpl in Hother. assert (H : "First-time" = "Repeat") by (apply Hother; discriminate).
    discriminate.
  - specialize (Hother _ (or_introl eq_refl) eq_refl).
    simpl in Hother. assert (H : "First-time" = "Repeat") by (apply Hother; discriminate).
    discriminate.
Qed.

(** C4, amended.  On a table with at least one line every order row is
    First-time or Repeat; it is First-time exactly when no order row of the
    same Email has an earlier Date placed and Repeat exactly when one has;
    every Email of an order row has at least one First-time row (several when
    orders share the earliest date). *)
Theorem C4_customer_types (ls : list Line) (Hne : ls <> []) :
  exists count_data revenue_data order_data df',
    analyse_data (load_lines ls) = Ok (count_data, revenue_data, order_data, df')
    /\ forall o, In o order_data ->
         (Order.Customer_Type o = "First-time" \/ Order.Customer_Type o = "Repeat")
         /\ (Order.Customer_Type o = "First-time" <->
             forall o', In o' order_data -> Order.Email o' = Order.Email o ->
                        Order.Date_placed o <= Order.Date_placed o')
         /\ (Order.Customer_Type o = "Repeat" <->
             exists o', In o' order_data /\ Order.Email o' = Order.Email o
                        /\ Order.Date_placed o' < Order.Date_placed o)
         /\ (exists o1, In o1 order_data /\ Order.Email o1 = Order.Email o
                        /\ Order.Customer_Type o1 = "First-time").
Proof.
  rewrite load_lines_frame, analyse_data_frame64 by assumption.
  do 4 eexists. split; [reflexivity|].
  unfold orders_of64. set (S := sorted_orders64 ls).
  assert (Hall : forall o', In o' (map (classified S) S) ->
                   exists s, In s S /\ o' = classified S s).
  { intros o' H. apply in_map_iff in H. destruct H as [s [<- Hs]]. eauto. }
  intros o Ho. destruct (Hall o Ho) as [s [Hs ->]].
  pose proof (earliest_lower S s Hs) as Hlow.
  destruct (earliest_attained S s Hs) as [s1 [Hs1 [He1 Hd1]]].
  cbn [classified Order.Customer_Type Order.Email Order.Date_placed].
  destruct (Z.ltb_spec (earliest S (Order.Email s)) (Order.Date_placed s)) as [Hlt|Hge].
  - split; [now right|]. split; [|split].
    + split; [discriminate|]. intros H. exfalso.
      specialize (H (classified S s1) (in_map _ _ _ Hs1) He1).
      cbn [classified Order.Date_placed] in H. lia.
    + split; [|reflexivity]. intros _. exists (classified S s1).
      repeat split; [now apply in_map | exact He1|].
      cbn [classified Order.Date_placed]. lia.
    + exists (classified S s1). split; [now apply in_map|]. split; [exact He1|].
      cbn [classified Order.Customer_Type Order.Email Order.Date_placed].
      rewrite He1, <- Hd1. now rewrite Z.ltb_irrefl.
  - split; [now left|]. split; [|split].
    + split; [|reflexivity]. intros _ o' Ho' He'.
      destruct (Hall o' Ho') as [s' [Hs' ->]].
      cbn [classified Order.Email Order.Date_placed] in *.
      pose proof (earliest_lower S s' Hs') as Hlow'. rewrite He' in Hlow'. lia.
    + split; [discriminate|]. intros [o' [Ho' [He' Hlt]]]. exfalso.
      destruct (Hall o' Ho') as [s' [Hs' ->]].
      cbn [classified Order.Email Order.Date_placed] in *.
      pose proof (earliest_lower S s' Hs') as Hlow'. rewrite He' in Hlow'. lia.
    + exists (classified S s). split; [now apply in_map|]. split; [reflexivity|].
      cbn [classified Order.Customer_Type Order.Email Order.Date_placed].
      destruct (Z.ltb_spec (earliest S (Order.Email s)) (Order.Date_placed s));
        [lia | reflexivity].
Qed.

(** C4 at the table of two orders of one customer on the same day. *)
Lemma C4_witness :
  same_day_orders <> []
  /\ exists count_data revenue_data order_data df',
       analyse_data (load_lines same_day_orders)
       = Ok (count_data, revenue_data, order_data, df')
       /\ forall o, In o order_data ->
            (Order.Customer_Type o = "First-time" \/ Order.Customer_Type o = "Repeat")
            /\ (Order.Customer_Type o = "First-time" <->
                forall o', In o' order_data -> Order.Email o' = Order.Email o ->
                           Order.Date_placed o <= Order.Date_placed o')
            /\ (Order.Customer_Type o = "Repeat" <->
                exists o', In o' order_data /\ Order.Email o' = Order.Email o
                           /\ Order.Date_placed o' < Order.Date_placed o)
            /\ (exists o1, In o1 order_data /\ Order.Email o1 = Order.Email o
                           /\ Order.Customer_Type o1 = "First-time").
Proof.
  assert (H : same_day_orders <> []) by discriminate.
  split; [exact H | exact (C4_customer_types H)].
Defined.

(** ** The cohort matrices *)

Lemma existsb_eqb_In c names : existsb (String.eqb c) names = true <-> In c names.
Proof.
  rewrite existsb_exists. split.
  - intros [x [Hx He]]. apply String.eqb_eq in He. now subst.
  - intros H. exists c. split; [assumption | apply String.eqb_refl].
Qed.

Lemma ensure_column_months c m :
  Matrix.Month_Year (ensure_column c m) = Matrix.Month_Year m.
Proof. unfold ensure_column. now destruct (existsb _ _). Qed.

Lemma ensure_column_keeps c m x :
  In x (Matrix.columns m) -> In x (Matrix.columns (ensure_column c m)).
Proof.
  unfold ensure_column. destruct (existsb _ _); simpl; [auto|].
  intros H. apply in_or_app. now left.
Qed.

Lemma ensure_column_new c m :
  c <> "Month-Year" -> ~ In c (map fst (Matrix.columns m)) ->
  In (c, map (fun _ => 0) (Matrix.Month_Year m))
     (Matrix.columns (ensure_column c m)).
Proof.
  intros Hc Hn. unfold ensure_column.
  destruct (existsb _ _) eqn:E.
  - apply existsb_eqb_In in E. destruct E as [E|E]; [congruence | contradiction].
  - simpl. apply in_or_app. right. now left.
Qed.

Lemma ensure_column_names c c' m :
  In c (map fst (Matrix.columns (ensure_column c' m))) ->
  c = c' \/ In c (map fst (Matrix.columns m)).
Proof.
  unfold ensure_column. destruct (existsb _ _); simpl; [now right|].
  rewrite map_app, in_app_iff. simpl. intuition.
Qed.

Lemma ensure_columns_cohort value orders c :
  value [] = 0 -> c = "First-time" \/ c = "Repeat" ->
  In (c, cohort_column value orders c)
     (Matrix.columns (ensure_columns (unstack value orders))).
Proof.
  intros Hv Hc.
  set (U := unstack value orders).
  set (types := unique_strings (map Order.Customer_Type orders)).
  assert (Hpresent : In c types -> In (c, cohort_column value orders c) (Matrix.columns U)).
  { intros H. unfold U, unstack. cbn [Matrix.columns].
    apply in_map_iff. exists c. split; [|exact H].
    f_equal. unfold cohort_column. apply map_ext. intros m.
    destruct (filter (in_cohort m c) orders); [now rewrite Hv | reflexivity]. }
  assert (Habsent : ~ In c types ->
                    map (fun _ => 0) (Matrix.Month_Year U) = cohort_column value orders c).
  { intros H. unfold U, unstack, cohort_column. cbn [Matrix.Month_Year].
    rewrite map_map. apply map_ext. intros m.
    replace (filter (in_cohort m c) orders) with (@nil Order.row); [now rewrite Hv|].
    symmetry. destruct (filter (in_cohort m c) orders) as [|o g] eqn:Hf; [reflexivity|].
    exfalso. assert (Ho : In o (filter (in_cohort m c) orders))
      by (rewrite Hf; now left).
    apply filter_In in Ho.
    destruct Ho as [Ho Hco]. apply H. apply unique_strings_In.
    unfold in_cohort in Hco. apply andb_true_iff in Hco. destruct Hco as [_ Hco].
    apply String.eqb_eq in Hco. rewrite <- Hco. now apply in_map. }
  assert (Hnames : map fst (Matrix.columns U) = types).
  { unfold U, unstack. cbn [Matrix.columns]. rewrite map_map. apply map_id. }
  unfold ensure_columns. cbn [fold_left].
  destruct (in_dec string_dec c types) as [Hin|Hnin].
  - apply ensure_column_keeps, ensure_column_keeps. auto.
  - rewrite <- (Habsent Hnin). destruct Hc as [-> | ->].
    + apply ensure_column_keeps. apply ensure_column_new; [discriminate|].
      now rewrite Hnames.
    + rewrite <- (ensure_column_months "First-time" U).
      apply ensure_column_new; [discriminate|].
      intros H. apply ensure_column_names in H.
      destruct H as [H|H]; [discriminate|]. rewrite Hnames in H. contradiction.
Qed.

Lemma ensure_columns_months m :
  Matrix.Month_Year (ensure_columns m) = Matrix.Month_Year m.
Proof.
  unfold ensure_columns. cbn [fold_left]. now rewrite !ensure_column_months.
Qed.

(** C8, counterexample.  On a table without lines [analyse_data] returns no
    matrix at all: it raises ValueError, and so does [main]. *)
Lemma C8_counterexample :
  analyse_data (load_lines []) = Raise ValueError
  /\ main (map raw_of_line []) = Raise ValueError.
Proof. split; reflexivity. Qed.

(** C8, amended.  On a table with at least one line, both matrices returned
    by [analyse_data] have a "First-time" and a "Repeat" column, whatever
    customer types occur; the count column holds, for each month row, the
    number of orders of that month and type, and both columns hold 0 wherever
    no order of that month and type exists. *)
Theorem C8_both_columns (ls : list Line) (Hne : ls <> []) :
  exists count_data revenue_data order_data df',
    analyse_data (load_lines ls) = Ok (count_data, revenue_data, order_data, df')
    /\ let months := unique_Z (map Order.Month_Year order_data) in
       Matrix.Month_Year count_data = map period_str months
       /\ Matrix.Month_Year revenue_data = map period_str months
       /\ forall c, c = "First-time" \/ c = "Repeat" ->
          exists counts revenues,
            In (c, counts) (Matrix.columns count_data)
            /\ In (c, revenues) (Matrix.columns revenue_data)
            /\ counts = map (fun m => Z.of_nat (List.length
                                        (filter (in_cohort m c) order_data))) months
            /\ List.length revenues = List.length months
            /\ forall i m, nth_error months i = Some m ->
                 filter (in_cohort m c) order_data = [] ->
                 nth_error counts i = Some 0 /\ nth_error revenues i = Some 0.
Proof.
  rewrite load_lines_frame, analyse_data_frame64 by assumption.
  do 4 eexists. split; [reflexivity|]. cbv zeta.
  rewrite !ensure_columns_months. cbn [unstack Matrix.Month_Year].
  split; [reflexivity|]. split; [reflexivity|].
  intros c Hc. do 2 eexists.
  split; [apply (ensure_columns_cohort (fun g => Z.of_nat (List.length g)));
          [reflexivity | exact Hc]|].
  split; [apply (ensure_columns_cohort (fun g => int64_sum (map Order.Revenue g)));
          [reflexivity | exact Hc]|].
  split; [reflexivity|].
  split; [unfold cohort_column; now rewrite length_map|].
  intros i m Hi Hempty. unfold cohort_column.
  split; rewrite nth_error_map, Hi; cbn [option_map]; now rewrite Hempty.
Qed.

(** C8 at the table of one order, where only First-time occurs. *)
Lemma C8_witness :
  one_order <> []
  /\ exists count_data revenue_data order_data df',
       analyse_data (load_lines one_order)
       = Ok (count_data, revenue_data, order_data, df')
       /\ let months := unique_Z (map Order.Month_Year order_data) in
          Matrix.Month_Year count_data = map period_str months
          /\ Matrix.Month_Year revenue_data = map period_str months
          /\ forall c, c = "First-time" \/ c = "Repeat" ->
             exists counts revenues,
               In (c, counts) (Matrix.columns count_data)
               /\ In (c, revenues) (Matrix.columns revenue_data)
               /\ counts = map (fun m => Z.of_nat (List.length
                                           (filter (in_cohort m c) order_data))) months
               /\ List.length revenues = List.length months
               /\ forall i m, nth_error months i = Some m ->
                    filter (in_cohort m c) order_data = [] ->
                    nth_error counts i = Some 0 /\ nth_error revenues i = Some 0.
Proof.
  split; [exact one_order_nonempty | exact (C8_both_columns one_order_nonempty)].
Defined.

(* ================================================================== *)
(** * Row-wise reading of the Product Performance Aggregator *)

Lemma add_where_ints_map {X} mask (f : X -> Z) xs n :
  add_where mask (map (fun x => CInt (f x)) xs) n
  = Ok (map CInt (zip_with (fun (b : bool) z => if b then wrap (z + n) else z)
                           mask (map f xs))).
Proof. rewrite <- add_where_ints. now rewrite map_map. Qed.

Lemma series_sum_take mask (col : list Z) :
  series_sum (take_rows mask (map CInt col))
  = Ok (CInt (int64_sum (take_rows mask col))).
Proof. now rewrite take_rows_map, series_sum_ints. Qed.

Lemma series_sum_take_map {X} mask (f : X -> Z) xs :
  series_sum (take_rows mask (map (fun x => CInt (f x)) xs))
  = Ok (CInt (int64_sum (map f (take_rows mask xs)))).
Proof. now rewrite take_rows_map, series_sum_ints_map. Qed.

Lemma series_mean_take_map {X} mask (f : X -> Z) xs :
  series_mean (take_rows mask (map (fun x => CInt (f x)) xs))
  = Ok (truediv (Zsum (map f (take_rows mask xs)))
                (Z.of_nat (List.length (take_rows mask xs)))).
Proof.
  unfold series_mean. rewrite take_rows_map.
  rewrite <- (map_map f CInt), mapM_num_ints. cbn [bind].
  now rewrite !length_map.
Qed.

Lemma aggregate_product_lines ls k :
  aggregate_product (map LSKU ls)
    (map (fun l => CInt (LQTY l)) ls)
    (map CInt (with_fee64 (first_items ls) (map line_revenue64 ls)))
    (map CInt (with_fee64 (first_items ls) (map line_profit64 ls)))
    (map (fun l => CInt (UnitPrice l)) ls)
    (map (fun l => CInt (UnitCost l)) ls) k
  = Ok (let g := group_mask k (map LSKU ls) in
        let n := Z.of_nat (List.length (take_rows g ls)) in
        mkPAgg k (CInt (int64_sum (map LQTY (take_rows g ls))))
          (CInt (int64_sum (take_rows g (with_fee64 (first_items ls)
                                                   (map line_revenue64 ls)))))
          (CInt (int64_sum (take_rows g (with_fee64 (first_items ls)
                                                   (map line_profit64 ls)))))
          (truediv (Zsum (map UnitPrice (take_rows g ls))) n)
          (truediv (Zsum (map UnitCost (take_rows g ls))) n)).
Proof.
  unfold aggregate_product.
  rewrite series_sum_take_map, !series_sum_take, !series_mean_take_map.
  reflexivity.
Qed.

(** The Product Performance Aggregator as the 64-bit arithmetic computes
    it. *)
Lemma analyse_product_sales_frame64 ls r p f :
  analyse_product_sales (frame_of ls r p f)
  = Ok (products_of64 ls, frame_after_products64 ls).
Proof.
  unfold analyse_product_sales, frame_of.
  cbn [getitem Frame.QTY Frame.Unit_Price bind].
  rewrite series_mul_ints.
  cbn [getitem bind Frame.QTY Frame.Unit_Price Frame.Unit_Cost Frame.set_Revenue].
  rewrite series_sub_ints. cbn [bind].
  rewrite (series_mul_ints (fun l => wrap (UnitPrice l - UnitCost l)) LQTY).
  cbn [getitem bind Frame.QTY Frame.Unit_Price Frame.Unit_Cost Frame.Order_ID
       Frame.Revenue Frame.Profit Frame.Is_First_Item Frame.SKU
       Frame.set_Revenue Frame.set_Profit Frame.set_Is_First_Item
       Frame.Email Frame.Date_placed Frame.Date_Completed].
  fold (first_items ls).
  rewrite (add_where_ints_map _ (fun l => wrap (LQTY l * UnitPrice l))).
  cbn [bind].
  rewrite (add_where_ints_map
             _ (fun l => wrap (wrap (UnitPrice l - UnitCost l) * LQTY l))).
  cbn [bind].
  change (map (fun l => wrap (LQTY l * UnitPrice l)) ls)
    with (map line_revenue64 ls).
  change (map (fun l => wrap (wrap (UnitPrice l - UnitCost l) * LQTY l)) ls)
    with (map line_profit64 ls).
  fold (with_fee64 (first_items ls) (map line_revenue64 ls)).
  fold (with_fee64 (first_items ls) (map line_profit64 ls)).
  change (require_columns _ _) with (Ok tt). cbn [bind].
  rewrite (mapM_ok_id _ _ _ (fun k _ => aggregate_product_lines ls k)).
  cbn [bind].
  rewrite (mapM_ok profit_margin _ (product_of64 ls)) by (intros; reflexivity).
  reflexivity.
Qed.

Lemma first_items_length ls : List.length (first_items ls) = List.length ls.
Proof.
  unfold first_items, duplicated.
  now rewrite length_map, duplicated_from_length, length_map.
Qed.

Lemma with_fee_length mask col :
  List.length mask = List.length col ->
  List.length (with_fee mask col) = List.length col.
Proof. intros H. unfold with_fee. rewrite zip_with_length; auto. Qed.

Section Safe_products.

Variable ls : list Line.
Hypothesis safe : int64_safe ls.

Lemma revenue_with_fee_exact :
  with_fee64 (first_items ls) (map line_revenue64 ls)
  = with_fee (first_items ls) (map line_revenue ls).
Proof.
  rewrite (revenue_column_exact safe). apply with_fee64_exact.
  rewrite length_map. safe_facts ls. unfold int64_safe in safe. lia.
Qed.

Lemma profit_with_fee_exact :
  with_fee64 (first_items ls) (map line_profit64 ls)
  = with_fee (first_items ls) (map line_profit ls).
Proof.
  rewrite (profit_column_exact safe). apply with_fee64_exact.
  rewrite length_map. safe_facts ls. unfold int64_safe in safe. lia.
Qed.

(** The group sums of a column with the fee are exact. *)
Lemma group_sum_with_fee_exact (f : Line -> Z) mask :
  Zabs_sum (map f ls) + 30 * Z.of_nat (List.length ls) <= max_int64 ->
  int64_sum (take_rows mask (with_fee (first_items ls) (map f ls)))
  = Zsum (take_rows mask (with_fee (first_items ls) (map f ls))).
Proof.
  intros H. apply int64_sum_exact.
  pose proof (Zabs_sum_take_rows mask (with_fee (first_items ls) (map f ls))).
  pose proof (Zabs_sum_with_fee (first_items ls) (map f ls)) as Hf.
  rewrite length_map in Hf. lia.
Qed.

Lemma product_of64_exact k : product_of64 ls k = product_of ls k.
Proof.
  unfold product_of64, product_of. cbv zeta.
  rewrite revenue_with_fee_exact, profit_with_fee_exact.
  safe_facts ls. unfold int64_safe in safe.
  rewrite !group_sum_with_fee_exact by lia.
  rewrite (int64_sum_exact (map LQTY _)); [reflexivity|].
  rewrite <- take_rows_map.
  pose proof (Zabs_sum_take_rows (group_mask k (map LSKU ls)) (map LQTY ls)).
  lia.
Qed.

Lemma products_of64_exact : products_of64 ls = products_of ls.
Proof.
  unfold products_of64, products_of.
  now rewrite (map_ext _ _ product_of64_exact).
Qed.

Lemma frame_after_products64_exact :
  frame_after_products64 ls = frame_after_products ls.
Proof.
  unfold frame_after_products64, frame_after_products.
  now rewrite revenue_with_fee_exact, profit_with_fee_exact.
Qed.

End Safe_products.

(** The Product Performance Aggregator on a table on which the 64-bit
    arithmetic is exact. *)
Lemma analyse_product_sales_frame ls r p f :
  int64_safe ls ->
  analyse_product_sales (frame_of ls r p f)
  = Ok (products_of ls, frame_after_products ls).
Proof.
  intros Hs. rewrite analyse_product_sales_frame64.
  now rewrite (products_of64_exact Hs), (frame_after_products64_exact Hs).
Qed.

(** ** Totals *)

Lemma Zsum_with_fee_first_items (f : Line -> Z) ls :
  Zsum (with_fee (first_items ls) (map f ls))
  = Zsum (map f ls) + 15 * distinct_orders ls.
Proof.
  unfold with_fee, first_items, distinct_orders.
  apply Zsum_first_items. now rewrite !length_map.
Qed.

Lemma products_total_revenue ls :
  Zsum (map Product.Revenue (products_of ls))
  = Zsum (map line_revenue ls) + 15 * distinct_orders ls.
Proof.
  unfold products_of.
  rewrite (Zsum_map_perm Product.Revenue (sort_by_perm revenue_desc _)).
  rewrite map_map. cbn [product_of Product.Revenue].
  rewrite Zsum_string_groups.
  - apply Zsum_with_fee_first_items.
  - rewrite with_fee_length; rewrite ?first_items_length; now rewrite !length_map.
Qed.

Lemma products_total_profit ls :
  Zsum (map Product.Profit (products_of ls))
  = Zsum (map line_profit ls) + 15 * distinct_orders ls.
Proof.
  unfold products_of.
  rewrite (Zsum_map_perm Product.Profit (sort_by_perm revenue_desc _)).
  rewrite map_map. cbn [product_of Product.Profit].
  rewrite Zsum_string_groups.
  - apply Zsum_with_fee_first_items.
  - rewrite with_fee_length; rewrite ?first_items_length; now rewrite !length_map.
Qed.








(* ================================================================== *)
(** * Row-wise reading of the Monthly Profitability Aggregator *)

Lemma cumsum_from_ints acc l :
  cumsum_from (CInt acc) (map CInt l) = Ok (map CInt (running64_from acc l)).
Proof.
  revert acc. induction l as [|x l IH]; intros acc; [reflexivity|].
  cbn [map cumsum_from py_add bind running64_from]. now rewrite IH.
Qed.

Lemma cumsum_ints l : cumsum (map CInt l) = Ok (map CInt (running64 l)).
Proof.
  destruct l as [|x l]; [reflexivity|].
  cbn [map cumsum running64]. now rewrite cumsum_from_ints.
Qed.

Lemma running_from_length acc l : List.length (running_from acc l) = List.length l.
Proof. revert acc. induction l; intros; simpl; auto. Qed.

Lemma insert_by_map {A B} (le : B -> B -> bool) (g : A -> B) x l :
  insert_by le (g x) (map g l) = map g (insert_by (fun a b => le (g a) (g b)) x l).
Proof.
  induction l as [|y l IH]; simpl; [reflexivity|].
  destruct (le (g x) (g y)); simpl; [reflexivity | now rewrite IH].
Qed.

Lemma sort_by_map {A B} (le : B -> B -> bool) (g : A -> B) l :
  sort_by le (map g l) = map g (sort_by (fun a b => le (g a) (g b)) l).
Proof.
  induction l as [|x l IH]; simpl; [reflexivity|].
  now rewrite IH, insert_by_map.
Qed.

Lemma combine_maps {A B C D} (f : A -> C) (g : B -> D) a b :
  combine (map f a) (map g b) = map (fun p => (f (fst p), g (snd p))) (combine a b).
Proof.
  revert b. induction a as [|x a IH]; intros [|y b]; simpl; try reflexivity.
  now rewrite IH.
Qed.

Lemma map_fst_combine_with {A B C} (h : A -> C) (a : list A) (b : list B) :
  List.length a = List.length b -> map (fun p => h (fst p)) (combine a b) = map h a.
Proof.
  revert b. induction a as [|x a IH]; intros [|y b] H; simpl in *;
    try discriminate; [reflexivity|].
  f_equal. apply IH. lia.
Qed.

Lemma map_snd_combine_with {A B C} (h : B -> C) (a : list A) (b : list B) :
  List.length a = List.length b -> map (fun p => h (snd p)) (combine a b) = map h b.
Proof.
  revert b. induction a as [|x a IH]; intros [|y b] H; simpl in *;
    try discriminate; [reflexivity|].
  f_equal. apply IH. lia.
Qed.

Section Months.

Variable ls : list Line.
(** The numbers in the Revenue column of the frame when the function is
    entered. *)
Variable revenue_in : list Z.

Lemma aggregate_month_lines m :
  aggregate_month (periods ls)
    (map CInt (with_fee64 (first_items ls) (map line_profit64 ls)))
    (map CInt (with_fee64 (first_items ls) revenue_in)) m
  = Ok (to_timestamp m, CInt (month_profit64 ls m),
        CInt (month_revenue64 ls revenue_in m)).
Proof.
  unfold aggregate_month. now rewrite !series_sum_take.
Qed.

(** The Monthly Profitability Aggregator as the 64-bit arithmetic computes
    it. *)
Lemma analyse_profitability_frame64 p f :
  analyse_profitability_over_time (frame_of ls (Some (map CInt revenue_in)) p f)
  = Ok (months_of64 ls revenue_in,
        frame_of ls
          (Some (map CInt (with_fee64 (first_items ls) revenue_in)))
          (Some (map CInt (with_fee64 (first_items ls) (map line_profit64 ls))))
          (Some (first_items ls))).
Proof.
  unfold analyse_profitability_over_time, frame_of.
  cbn [getitem Frame.Unit_Price Frame.Unit_Cost bind].
  rewrite series_sub_ints.
  cbn [getitem bind Frame.QTY].
  rewrite (series_mul_ints (fun l => wrap (UnitPrice l - UnitCost l)) LQTY).
  cbn [getitem bind Frame.QTY Frame.Unit_Price Frame.Unit_Cost Frame.Order_ID
       Frame.Revenue Frame.Profit Frame.Is_First_Item Frame.SKU
       Frame.set_Revenue Frame.set_Profit Frame.set_Is_First_Item
       Frame.Email Frame.Date_placed Frame.Date_Completed].
  fold (first_items ls).
  rewrite (add_where_ints_map
             _ (fun l => wrap (wrap (UnitPrice l - UnitCost l) * LQTY l))).
  cbn [bind]. rewrite add_where_ints. cbn [bind].
  change (map (fun l => wrap (wrap (UnitPrice l - UnitCost l) * LQTY l)) ls)
    with (map line_profit64 ls).
  fold (with_fee64 (first_items ls) (map line_profit64 ls)).
  fold (with_fee64 (first_items ls) revenue_in).
  change (require_columns _ _) with (Ok tt). cbn [bind]. fold (periods ls).
  rewrite (mapM_ok_id _ _ _ (fun m _ => aggregate_month_lines m)).
  cbn [bind].
  rewrite (sort_by_map (fun a b : Z * cell * cell => fst (fst a) <=? fst (fst b))
                       (fun m => (to_timestamp m, CInt (month_profit64 ls m),
                                  CInt (month_revenue64 ls revenue_in m)))).
  cbn [fst snd]. fold (sorted_months ls).
  rewrite map_map. cbn [fst snd].
  rewrite <- (map_map (month_profit64 ls) CInt), cumsum_ints. cbn [bind].
  rewrite combine_maps, map_map. reflexivity.
Qed.

Lemma months_of_profit :
  map MonthBucket.Profit (months_of ls revenue_in)
  = map CInt (map (month_profit ls) (sorted_months ls)).
Proof.
  unfold months_of. rewrite map_map. cbn [MonthBucket.Profit].
  rewrite (map_fst_combine_with (fun m => CInt (month_profit ls m))).
  - now rewrite map_map.
  - unfold running_sum. now rewrite running_from_length, length_map.
Qed.

Lemma months_of_revenue :
  map MonthBucket.Revenue (months_of ls revenue_in)
  = map CInt (map (month_revenue ls revenue_in) (sorted_months ls)).
Proof.
  unfold months_of. rewrite map_map. cbn [MonthBucket.Revenue].
  rewrite (map_fst_combine_with (fun m => CInt (month_revenue ls revenue_in m))).
  - now rewrite map_map.
  - unfold running_sum. now rewrite running_from_length, length_map.
Qed.

Lemma months_of_cumulative :
  map MonthBucket.Cumulative_Profit (months_of ls revenue_in)
  = map CInt (running_sum (map (month_profit ls) (sorted_months ls))).
Proof.
  unfold months_of. rewrite map_map. cbn [MonthBucket.Cumulative_Profit].
  apply map_snd_combine_with.
  unfold running_sum. now rewrite running_from_length, length_map.
Qed.





Hypothesis revenue_in_length : List.length revenue_in = List.length ls.

Lemma months_total_revenue :
  Zsum (map (month_revenue ls revenue_in) (sorted_months ls))
  = Zsum revenue_in + 15 * distinct_orders ls.
Proof.
  unfold sorted_months.
  rewrite (Zsum_map_perm (month_revenue ls revenue_in) (sort_by_perm _ _)).
  unfold month_revenue.
  rewrite (Zsum_groups Z.eqb Z.eqb_eq).
  - unfold with_fee, first_items, distinct_orders.
    apply Zsum_first_items. now rewrite length_map.
  - apply unique_Z_NoDup.
  - intros x Hx. now apply unique_Z_In.
  - rewrite with_fee_length; rewrite ?first_items_length; unfold periods;
      rewrite ?length_map; auto.
Qed.

End Months.

Section Safe_months.

Variable ls : list Line.
Hypothesis safe : int64_safe ls.
Variable revenue_in : list Z.
Hypothesis revenue_in_length : List.length revenue_in = List.length ls.
Hypothesis revenue_in_bound :
  Zabs_sum revenue_in + 15 * Z.of_nat (List.length ls) <= max_int64.

Lemma month_profit64_exact m : month_profit64 ls m = month_profit ls m.
Proof.
  unfold month_profit64, month_profit.
  rewrite (profit_with_fee_exact safe).
  apply group_sum_with_fee_exact.
  safe_facts ls. unfold int64_safe in safe. lia.
Qed.

Lemma revenue_in_with_fee_exact :
  with_fee64 (first_items ls) revenue_in = with_fee (first_items ls) revenue_in.
Proof. apply with_fee64_exact. rewrite revenue_in_length. exact revenue_in_bound. Qed.

Lemma month_revenue64_exact m :
  month_revenue64 ls revenue_in m = month_revenue ls revenue_in m.
Proof.
  unfold month_revenue64, month_revenue.
  rewrite revenue_in_with_fee_exact. apply int64_sum_exact.
  pose proof (Zabs_sum_take_rows (map (Z.eqb m) (periods ls))
                                 (with_fee (first_items ls) revenue_in)).
  pose proof (Zabs_sum_with_fee (first_items ls) revenue_in) as Hf.
  rewrite revenue_in_length in Hf. lia.
Qed.

(** The monthly profits stay within the line profits and one fee per
    line. *)
Lemma months_profit_bound :
  Zabs_sum (map (month_profit ls) (sorted_months ls)) <= max_int64.
Proof.
  unfold sorted_months.
  rewrite (Zabs_sum_perm (Permutation_map (month_profit ls) (sort_by_perm _ _))).
  unfold month_profit.
  etransitivity; [apply Zabs_sum_Z_groups|].
  - rewrite with_fee_length; rewrite ?first_items_length; unfold periods;
      now rewrite ?length_map.
  - pose proof (Zabs_sum_with_fee (first_items ls) (map line_profit ls)) as Hf.
    rewrite length_map in Hf.
    safe_facts ls. unfold int64_safe in safe. lia.
Qed.

Lemma months_of64_exact : months_of64 ls revenue_in = months_of ls revenue_in.
Proof.
  unfold months_of64, months_of.
  rewrite (map_ext _ _ month_profit64_exact).
  rewrite (running64_exact _ months_profit_bound).
  apply map_ext. intros mc.
  now rewrite month_profit64_exact, month_revenue64_exact.
Qed.

(** The Monthly Profitability Aggregator on a table on which the 64-bit
    arithmetic is exact. *)
Lemma analyse_profitability_frame p f :
  analyse_profitability_over_time (frame_of ls (Some (map CInt revenue_in)) p f)
  = Ok (months_of ls revenue_in,
        frame_of ls
          (Some (map CInt (with_fee (first_items ls) revenue_in)))
          (Some (map CInt (with_fee (first_items ls) (map line_profit ls))))
          (Some (first_items ls))).
Proof.
  rewrite analyse_profitability_frame64, months_of64_exact.
  now rewrite revenue_in_with_fee_exact, (profit_with_fee_exact safe).
Qed.

End Safe_months.

(** The Revenue columns that the function meets in [main] and after
    [analyse_data] leave room for the fee. *)
Lemma line_revenue_bound ls :
  int64_safe ls ->
  Zabs_sum (map line_revenue ls) + 15 * Z.of_nat (List.length ls) <= max_int64.
Proof.
  intros Hs. safe_facts ls. unfold int64_safe in Hs. lia.
Qed.

Lemma revenue_after_products_bound ls :
  int64_safe ls ->
  Zabs_sum (revenue_after_products ls) + 15 * Z.of_nat (List.length ls)
  <= max_int64.
Proof.
  intros Hs. unfold revenue_after_products.
  pose proof (Zabs_sum_with_fee (first_items ls) (map line_revenue ls)) as Hf.
  rewrite length_map in Hf.
  safe_facts ls. unfold int64_safe in Hs. lia.
Qed.

(* ================================================================== *)
(** * Row-wise reading of the Purchase-Affinity Analyzer *)

Lemma combine3_map {X A B C} (a : X -> A) (b : X -> B) (c : X -> C) xs :
  combine (combine (map a xs) (map b xs)) (map c xs)
  = map (fun x => (a x, b x, c x)) xs.
Proof. induction xs as [|x xs IH]; simpl; [reflexivity | now rewrite IH]. Qed.

Lemma analyse_first_and_repeat_purchases_frame ls r p f :
  analyse_first_and_repeat_purchases (frame_of ls r p f) = Ok (affinity_of ls).
Proof.
  unfold analyse_first_and_repeat_purchases, frame_of.
  cbn [getitem bind Frame.Email Frame.Date_placed Frame.SKU].
  now rewrite combine3_map.
Qed.

Lemma count_of_absent k l : ~ In k l -> count_of k l = 0.
Proof.
  intros H. unfold count_of.
  destruct (filter (String.eqb k) l) as [|x r] eqn:E; [reflexivity|]. exfalso.
  assert (Hx : In x (filter (String.eqb k) l)) by (rewrite E; now left).
  apply filter_In in Hx. destruct Hx as [Hx He]. apply String.eqb_eq in He.
  subst. contradiction.
Qed.

Lemma count_of_perm k a b : Permutation a b -> count_of k a = count_of k b.
Proof.
  intros H. unfold count_of. f_equal.
  apply Permutation_length. now apply filter_perm.
Qed.

Lemma perm_In_iff {A} (x : A) a b : Permutation a b -> (In x a <-> In x b).
Proof.
  intros H. split; apply Permutation_in; [assumption | now apply Permutation_sym].
Qed.

Lemma value_counts_keys l k : In k (map fst (value_counts l)) <-> In k l.
Proof.
  unfold value_counts.
  rewrite (perm_In_iff k (Permutation_map fst (sort_by_perm _ _))).
  rewrite map_map. cbn [fst]. rewrite map_id.
  rewrite (perm_In_iff k (first_occurrences_perm l)).
  apply unique_strings_In.
Qed.

Lemma count_or_zero_value_counts l k :
  count_or_zero (value_counts l) k = count_of k l.
Proof.
  unfold count_or_zero.
  destruct (find (fun kv => (fst kv =? k)%string) (value_counts l)) as [kv|] eqn:E.
  - apply find_some in E. destruct E as [Hin He]. apply String.eqb_eq in He.
    unfold value_counts in Hin. apply sort_by_In in Hin.
    apply in_map_iff in Hin. destruct Hin as [k' [<- _]]. simpl in He.
    now subst.
  - symmetry. apply count_of_absent. intros Hk.
    apply value_counts_keys in Hk. apply in_map_iff in Hk.
    destruct Hk as [kv [Hf Hin]].
    pose proof (find_none _ _ E kv Hin) as Hn. cbv beta in Hn.
    rewrite Hf, String.eqb_refl in Hn. discriminate.
Qed.

Lemma filter_take_rows_split {A} (t : A -> bool) mask (l : list A) :
  List.length mask = List.length l ->
  (List.length (filter t (take_rows mask l))
   + List.length (filter t (take_rows (map negb mask) l)))%nat
  = List.length (filter t l).
Proof.
  revert l. induction mask as [|b mask IH]; intros [|x l] H; simpl in H;
    try discriminate; [reflexivity|].
  specialize (IH l ltac:(lia)).
  destruct b; simpl; destruct (t x); simpl; lia.
Qed.

Section Affinity_counts.

Variable ls : list Line.

Lemma is_first_purchase_length :
  List.length (is_first_purchase ls) = List.length (df_sorted ls).
Proof.
  unfold is_first_purchase, duplicated.
  now rewrite length_map, duplicated_from_length, length_map.
Qed.

(** Every line is flagged either first or repeat: the two counts of a SKU
    add up to its number of lines. *)
Lemma first_plus_repeat k :
  count_of k (first_purchase_skus ls) + count_of k (repeat_purchase_skus ls)
  = count_of k (map LSKU ls).
Proof.
  unfold count_of, first_purchase_skus, repeat_purchase_skus.
  rewrite <- Nat2Z.inj_add. f_equal.
  rewrite !filter_map_comm, !length_map.
  rewrite filter_take_rows_split by apply is_first_purchase_length.
  unfold df_sorted.
  rewrite (Permutation_length (filter_perm _ (sort_by_perm _ _))).
  rewrite filter_map_comm, length_map. reflexivity.
Qed.

Lemma split_skus_In k :
  In k (first_purchase_skus ls) \/ In k (repeat_purchase_skus ls)
  <-> In k (map LSKU ls).
Proof.
  split.
  - assert (H : forall mask, In k (map snd (take_rows mask (df_sorted ls))) ->
                             In k (map LSKU ls)).
    { intros mask H. apply in_map_iff in H. destruct H as [r [<- Hr]].
      apply take_rows_In in Hr. unfold df_sorted in Hr.
      apply sort_by_In in Hr. apply in_map_iff in Hr.
      destruct Hr as [l [<- Hl]]. cbn [snd]. now apply in_map. }
    intros [Hk|Hk]; eapply H; eassumption.
  - intros H.
    destruct (in_dec string_dec k (first_purchase_skus ls)) as [Hf|Hf];
      [now left|right].
    destruct (in_dec string_dec k (repeat_purchase_skus ls)) as [Hr|Hr];
      [assumption|exfalso].
    pose proof (first_plus_repeat k) as E.
    rewrite (count_of_absent _ _ Hf), (count_of_absent _ _ Hr) in E.
    unfold count_of in E.
    destruct (filter (String.eqb k) (map LSKU ls)) as [|x r] eqn:Ef;
      [|simpl in E; lia].
    assert (Hin : In k (filter (String.eqb k) (map LSKU ls)))
      by (apply filter_In; split; [assumption | apply String.eqb_refl]).
    rewrite Ef in Hin. exact Hin.
Qed.

Lemma affinity_keys k :
  In k (unique_strings (map fst (value_counts (first_purchase_skus ls))
                        ++ map fst (value_counts (repeat_purchase_skus ls))))
  <-> In k (map LSKU ls).
Proof.
  rewrite unique_strings_In, in_app_iff, !value_counts_keys.
  apply split_skus_In.
Qed.

Lemma merge_counts_rows :
  merge_counts (value_counts (first_purchase_skus ls))
               (value_counts (repeat_purchase_skus ls))
  = map (affinity_row ls)
        (unique_strings (map fst (value_counts (first_purchase_skus ls))
                         ++ map fst (value_counts (repeat_purchase_skus ls)))).
Proof.
  unfold merge_counts. apply map_ext. intros k.
  now rewrite !count_or_zero_value_counts.
Qed.

Lemma affinity_of_sku k :
  In k (map LSKU ls) ->
  filter (fun r => (Affinity.SKU r =? k)%string) (affinity_of ls)
  = [affinity_row ls k].
Proof.
  intros Hk. unfold affinity_of.
  apply Permutation_length_1_inv. symmetry.
  etransitivity; [apply filter_perm, sort_by_perm|].
  rewrite merge_counts_rows, filter_map_comm. cbn [affinity_row Affinity.SKU].
  rewrite filter_key_NoDup; [reflexivity | apply unique_strings_NoDup|].
  now apply affinity_keys.
Qed.

Lemma affinity_of_skus r : In r (affinity_of ls) -> In (Affinity.SKU r) (map LSKU ls).
Proof.
  unfold affinity_of. rewrite sort_by_In, merge_counts_rows, in_map_iff.
  intros [k [<- Hk]]. cbn [affinity_row Affinity.SKU].
  now apply affinity_keys.
Qed.

End Affinity_counts.

(** C7.  For every SKU of the input table, the purchase-affinity table has
    exactly one row for it, and that row's First Purchase Count plus Repeat
    Purchase Count is the number of input lines with that SKU; the table has
    no row for any other SKU. *)
Theorem C7_first_plus_repeat_counts (ls : list Line) :
  exists purchase_analysis,
    analyse_first_and_repeat_purchases (load_lines ls) = Ok purchase_analysis
    /\ (forall sku, In sku (map LSKU ls) ->
        exists r,
          filter (fun r => (Affinity.SKU r =? sku)%string) purchase_analysis = [r]
          /\ Affinity.First_Purchase_Count r + Affinity.Repeat_Purchase_Count r
             = Z.of_nat (List.length
                           (filter (fun l => (LSKU l =? sku)%string) ls)))
    /\ (forall r, In r purchase_analysis -> In (Affinity.SKU r) (map LSKU ls)).
Proof.
  rewrite load_lines_frame, analyse_first_and_repeat_purchases_frame.
  eexists. split; [reflexivity|]. split.
  - intros sku Hsku. eexists. split; [now apply affinity_of_sku|].
    cbn [affinity_row Affinity.First_Purchase_Count Affinity.Repeat_Purchase_Count].
    rewrite first_plus_repeat. unfold count_of. f_equal.
    rewrite filter_map_comm, length_map. f_equal.
    apply filter_ext. intros l. apply String.eqb_sym.
  - apply affinity_of_skus.
Qed.

(* ================================================================== *)
(** * The pipeline on a table of order lines *)

Lemma revenue_after_products_length ls :
  List.length (revenue_after_products ls) = List.length ls.
Proof.
  unfold revenue_after_products.
  rewrite with_fee_length; rewrite ?first_items_length; now rewrite length_map.
Qed.

(** The pipeline on a table with at least one line on which the 64-bit
    arithmetic is exact. *)
Lemma main_lines ls :
  ls <> [] -> int64_safe ls ->
  main (map raw_of_line ls)
  = Ok (mkOutputs
          (ensure_columns (unstack (fun g => Z.of_nat (List.length g)) (orders_of ls)))
          (ensure_columns (unstack (fun g => Zsum (map Order.Revenue g)) (orders_of ls)))
          (orders_of ls) (products_of ls)
          (months_of ls (revenue_after_products ls))
          (affinity_of ls) (frame_after_months ls)).
Proof.
  intros Hne Hs. unfold main. fold (load_lines ls).
  rewrite load_lines_frame, analyse_data_frame by assumption. cbn [bind].
  rewrite analyse_product_sales_frame by assumption. cbn [bind].
  unfold frame_after_products. fold (revenue_after_products ls).
  rewrite (@analyse_profitability_frame
             ls Hs (revenue_after_products ls)
             (revenue_after_products_length ls)
             (revenue_after_products_bound Hs)).
  cbn [bind].
  rewrite analyse_first_and_repeat_purchases_frame. reflexivity.
Qed.


(** In the pipeline the monthly Revenue figures carry the fee twice per
    order, the monthly Profit figures once. *)
Lemma pipeline_monthly_totals ls :
  ls <> [] -> int64_safe ls ->
  exists out revenues profits,
    main (map raw_of_line ls) = Ok out
    /\ map MonthBucket.Revenue (profitability_data out) = map CInt revenues
    /\ map MonthBucket.Profit (profitability_data out) = map CInt profits
    /\ Zsum revenues
       = Zsum (map (fun l => LQTY l * UnitPrice l) ls) + 30 * distinct_orders ls
    /\ Zsum profits
       = Zsum (map (fun l => (UnitPrice l - UnitCost l) * LQTY l) ls)
         + 15 * distinct_orders ls.
Proof.
  intros Hne Hs.
  rewrite main_lines by assumption. do 3 eexists. split; [reflexivity|].
  cbn [profitability_data].
  split; [apply months_of_revenue|]. split; [apply months_of_profit|]. split.
  - rewrite months_total_revenue by apply revenue_after_products_length.
    unfold revenue_after_products. rewrite Zsum_with_fee_first_items.
    unfold line_revenue. lia.
  - unfold sorted_months.
    rewrite (Zsum_map_perm (month_profit ls) (sort_by_perm _ _)).
    unfold month_profit. rewrite (Zsum_groups Z.eqb Z.eqb_eq).
    + apply Zsum_with_fee_first_items.
    + apply unique_Z_NoDup.
    + intros x Hx. now apply unique_Z_In.
    + rewrite with_fee_length; rewrite ?first_items_length; unfold periods;
        now rewrite ?length_map.
Qed.

(** C1.  On a table of a single one-line order (1 x 100) the pipeline of
    [main] reports 115 as the order's revenue and as the product's revenue,
    but 130 as the month's Revenue: [analyse_profitability_over_time] adds
    the fee to the Revenue column that [analyse_product_sales] has already
    raised by the fee, so the fee is counted twice (30) where the claim says
    once (15). *)
Theorem C1_pipeline_counts_fee_twice :
  exists out,
    main (map raw_of_line one_order) = Ok out
    /\ map Order.Revenue (order_data out) = [115]
    /\ map Product.Revenue (product_analysis out) = [115]
    /\ map MonthBucket.Profit (profitability_data out) = [CInt 75]
    /\ map MonthBucket.Revenue (profitability_data out) = [CInt 130]
    /\ Zsum (map (fun l => LQTY l * UnitPrice l) one_order)
       + 15 * distinct_orders one_order = 115.
Proof.
  eexists. split; [vm_compute; reflexivity|].
  repeat split.
Qed.

(** * Cumulative profit *)






(* ================================================================== *)
(** * First purchases are single lines *)

Lemma count_of_cons k a l :
  count_of k (a :: l) = (if (k =? a)%string then 1 else 0) + count_of k l.
Proof.
  unfold count_of. simpl. destruct (k =? a)%string; simpl List.length; lia.
Qed.

Lemma Zsum_count_of ks l :
  NoDup ks -> incl l ks ->
  Zsum (map (fun k => count_of k l) ks) = Z.of_nat (List.length l).
Proof.
  intros Hnd. induction l as [|a l IH]; intros Hincl.
  - rewrite (map_ext _ (fun _ => 0)) by reflexivity.
    rewrite Zsum_map_const. simpl. lia.
  - assert (Ha : In a ks) by (apply Hincl; now left).
    assert (Hl : incl l ks) by (intros x Hx; apply Hincl; now right).
    rewrite (map_ext _ (fun k => (if (k =? a)%string then 1 else 0) + count_of k l))
      by (intros; apply count_of_cons).
    rewrite Zsum_map_add, (IH Hl).
    rewrite (Zsum_indicator String.eqb string_eqb_eq a 1 Hnd Ha).
    simpl List.length. lia.
Qed.

Lemma unique_strings_perm_length a b :
  Permutation a b ->
  List.length (unique_strings a) = List.length (unique_strings b).
Proof.
  intros H. apply Permutation_length.
  apply NoDup_Permutation; try apply unique_strings_NoDup.
  intros x. rewrite !unique_strings_In. now apply perm_In_iff.
Qed.

(** The First Purchase Counts of the whole table add up to the number of
    distinct emails: each customer contributes exactly one line, however many
    lines the first order has. *)
Lemma first_purchase_total ls :
  Zsum (map Affinity.First_Purchase_Count (affinity_of ls))
  = Z.of_nat (List.length (unique_strings (map LEmail ls))).
Proof.
  unfold affinity_of.
  rewrite (Zsum_map_perm Affinity.First_Purchase_Count (sort_by_perm _ _)).
  rewrite merge_counts_rows, map_map.
  cbn [affinity_row Affinity.First_Purchase_Count].
  rewrite Zsum_count_of.
  - f_equal. unfold first_purchase_skus. rewrite length_map.
    unfold is_first_purchase.
    rewrite (take_rows_length_eq _ (df_sorted ls)
                                 (map (fun r => fst (fst r)) (df_sorted ls)))
      by now rewrite length_map.
    rewrite (Permutation_length (first_occurrences_perm _)).
    apply unique_strings_perm_length.
    unfold df_sorted.
    rewrite (Permutation_map (fun r => fst (fst r)) (sort_by_perm _ _)), map_map.
    reflexivity.
  - apply unique_strings_NoDup.
  - intros k Hk. apply unique_strings_In, in_or_app. left.
    now apply value_counts_keys.
Qed.

(** C5.  Both lines of [two_line_first_order] belong to the customer's first
    (and only) order, yet the analyzer counts only the line of SKU "A" as a
    first purchase: the row of SKU "B" has First Purchase Count 0 and Repeat
    Purchase Count 1. *)
Theorem C5_first_order_line_counted_as_repeat :
  analyse_first_and_repeat_purchases (load_lines two_line_first_order)
  = Ok [ Affinity.mk "A" 1 0 (Ratio 0 1); Affinity.mk "B" 0 1 Inf ].
Proof. vm_compute. reflexivity. Qed.

(* ================================================================== *)
(** * The Revenue column is a precondition of the monthly aggregator *)

Lemma analyse_profitability_without_revenue df :
  Frame.Revenue df = None ->
  exists e, analyse_profitability_over_time df = Raise e.
Proof.
  intros H. unfold analyse_profitability_over_time.
  destruct (getitem "Unit Price" (Frame.Unit_Price df)) as [price|e];
    [|eexists; reflexivity]. cbn [bind].
  destruct (getitem "Unit Cost" (Frame.Unit_Cost df)) as [cost|e];
    [|eexists; reflexivity]. cbn [bind].
  destruct (series_sub price cost) as [unit_profit|e];
    [|eexists; reflexivity]. cbn [bind].
  destruct (getitem "QTY" (Frame.QTY df)) as [qty|e];
    [|eexists; reflexivity]. cbn [bind].
  destruct (series_mul unit_profit qty) as [profit|e];
    [|eexists; reflexivity]. cbn [bind].
  destruct df as [oid em dp dc sku q up uc rev prof isf].
  cbn [Frame.Revenue] in H. subst rev.
  cbn [Frame.set_Profit Frame.Order_ID Frame.Email Frame.Date_placed
       Frame.Date_Completed Frame.SKU Frame.QTY Frame.Unit_Price Frame.Unit_Cost
       Frame.Revenue Frame.Profit Frame.Is_First_Item].
  destruct (getitem "Order ID" oid) as [ids|e]; [|eexists; reflexivity].
  cbn [bind Frame.set_Is_First_Item Frame.set_Profit Frame.Order_ID Frame.Email
       Frame.Date_placed Frame.Date_Completed Frame.SKU Frame.QTY
       Frame.Unit_Price Frame.Unit_Cost Frame.Revenue Frame.Profit
       Frame.Is_First_Item getitem].
  destruct (add_where (map negb (duplicated ids)) profit 15) as [profit'|e];
    eexists; reflexivity.
Qed.

Lemma analyse_profitability_loaded ls :
  analyse_profitability_over_time (load_lines ls) = Raise (KeyError ["Revenue"]).
Proof.
  rewrite load_lines_frame.
  unfold analyse_profitability_over_time, frame_of.
  cbn [getitem Frame.Unit_Price Frame.Unit_Cost bind].
  rewrite series_sub_ints.
  cbn [getitem bind Frame.QTY].
  rewrite (series_mul_ints (fun l => wrap (UnitPrice l - UnitCost l)) LQTY).
  cbn [getitem bind Frame.QTY Frame.Unit_Price Frame.Unit_Cost Frame.Order_ID
       Frame.Revenue Frame.Profit Frame.Is_First_Item Frame.SKU
       Frame.set_Revenue Frame.set_Profit Frame.set_Is_First_Item
       Frame.Email Frame.Date_placed Frame.Date_Completed].
  rewrite (add_where_ints_map
             _ (fun l => wrap (wrap (UnitPrice l - UnitCost l) * LQTY l))).
  reflexivity.
Qed.

(** C10.  [analyse_profitability_over_time] never returns a table for a frame
    without a Revenue column; on the direct output of [load_data] it stops at
    the step that adds the fee to Revenue, with KeyError 'Revenue'.  On a
    table with at least one line it does return its table on the frame that
    [analyse_data], or [analyse_data] and then [analyse_product_sales], has
    written a Revenue column to. *)
Theorem C10_revenue_column_precondition :
  (forall df, Frame.Revenue df = None ->
              exists e, analyse_profitability_over_time df = Raise e)
  /\ (forall ls,
        analyse_profitability_over_time (load_data (map raw_of_line ls))
        = Raise (KeyError ["Revenue"]))
  /\ (forall ls, ls <> [] ->
        exists count_data revenue_data order_data df1 months df2,
          analyse_data (load_lines ls)
          = Ok (count_data, revenue_data, order_data, df1)
          /\ Frame.Revenue df1 <> None
          /\ analyse_profitability_over_time df1 = Ok (months, df2))
  /\ (forall ls, ls <> [] ->
        exists count_data revenue_data order_data df1 products df2 months df3,
          analyse_data (load_lines ls)
          = Ok (count_data, revenue_data, order_data, df1)
          /\ analyse_product_sales df1 = Ok (products, df2)
          /\ Frame.Revenue df2 <> None
          /\ analyse_profitability_over_time df2 = Ok (months, df3)).
Proof.
  split; [exact analyse_profitability_without_revenue|].
  split; [exact analyse_profitability_loaded|]. split.
  - intros ls Hne. rewrite load_lines_frame, analyse_data_frame64 by assumption.
    do 6 eexists. split; [reflexivity|]. split; [discriminate|].
    rewrite <- (map_map line_revenue64 CInt).
    apply analyse_profitability_frame64.
  - intros ls Hne. rewrite load_lines_frame, analyse_data_frame64 by assumption.
    do 8 eexists. split; [reflexivity|].
    rewrite analyse_product_sales_frame64. split; [reflexivity|].
    split; [discriminate|]. apply analyse_profitability_frame64.
Qed.

(** C10 at a table of one line. *)
Lemma C10_witness :
  Frame.Revenue (load_lines one_order) = None
  /\ (exists e, analyse_profitability_over_time (load_lines one_order) = Raise e)
  /\ one_order <> []
  /\ exists count_data revenue_data order_data df1 months df2,
       analyse_data (load_lines one_order)
       = Ok (count_data, revenue_data, order_data, df1)
       /\ Frame.Revenue df1 <> None
       /\ analyse_profitability_over_time df1 = Ok (months, df2).
Proof.
  split; [reflexivity|].
  split; [exact (proj1 C10_revenue_column_precondition (load_lines one_order)
                       eq_refl)|].
  split; [exact one_order_nonempty|].
  exact (proj1 (proj2 (proj2 C10_revenue_column_precondition))
               one_order one_order_nonempty).
Defined.

(* ================================================================== *)
(** * Errors of the Order Aggregator *)












(** ** A missing column *)








(** ** Non-numeric cells *)









(** ** The claim of SchemaError and DataError *)






(* ================================================================== *)
(** * Further totals *)

(** X1.  On a table of integers with at least one line on which no 64-bit
    operation wraps around, in the pipeline of [main] the Revenue figures of
    the monthly table add up to the sum of QTY x Unit Price over all lines
    plus 30 per distinct order, and its Profit figures to the sum of
    (Unit Price - Unit Cost) x QTY plus 15 per distinct order. *)
Theorem X1_pipeline_monthly_totals (ls : list Line)
    (Hne : ls <> []) (Hsafe : int64_safe ls) :
  exists out revenues profits,
    main (map raw_of_line ls) = Ok out
    /\ map MonthBucket.Revenue (profitability_data out) = map CInt revenues
    /\ map MonthBucket.Profit (profitability_data out) = map CInt profits
    /\ Zsum revenues
       = Zsum (map (fun l => LQTY l * UnitPrice l) ls) + 30 * distinct_orders ls
    /\ Zsum profits
       = Zsum (map (fun l => (UnitPrice l - UnitCost l) * LQTY l) ls)
         + 15 * distinct_orders ls.
Proof. exact (pipeline_monthly_totals Hne Hsafe). Qed.

(** X1 at the table of one order of one line. *)
Lemma X1_witness :
  one_order <> [] /\ int64_safe one_order
  /\ exists out revenues profits,
       main (map raw_of_line one_order) = Ok out
       /\ map MonthBucket.Revenue (profitability_data out) = map CInt revenues
       /\ map MonthBucket.Profit (profitability_data out) = map CInt profits
       /\ Zsum revenues
          = Zsum (map (fun l => LQTY l * UnitPrice l) one_order)
            + 30 * distinct_orders one_order
       /\ Zsum profits
          = Zsum (map (fun l => (UnitPrice l - UnitCost l) * LQTY l) one_order)
            + 15 * distinct_orders one_order.
Proof.
  split; [exact one_order_nonempty|]. split; [exact one_order_safe|].
  exact (X1_pipeline_monthly_totals one_order_nonempty one_order_safe).
Defined.

(** X2.  On such a table, run directly on the frame that [analyse_data]
    leaves behind, the monthly aggregator counts the fee once: its Revenue
    figures add up to the sum of QTY x Unit Price plus 15 per distinct
    order. *)
Theorem X2_monthly_revenue_after_analyse_data (ls : list Line)
    (Hne : ls <> []) (Hsafe : int64_safe ls) :
  exists count_data revenue_data order_data df1 months df2 revenues,
    analyse_data (load_lines ls) = Ok (count_data, revenue_data, order_data, df1)
    /\ analyse_profitability_over_time df1 = Ok (months, df2)
    /\ map MonthBucket.Revenue months = map CInt revenues
    /\ Zsum revenues
       = Zsum (map (fun l => LQTY l * UnitPrice l) ls) + 15 * distinct_orders ls.
Proof.
  rewrite load_lines_frame, analyse_data_frame by assumption.
  do 7 eexists. split; [reflexivity|].
  rewrite <- (map_map (fun l => LQTY l * UnitPrice l) CInt).
  split; [apply (@analyse_profitability_frame
                   ls Hsafe (map line_revenue ls)
                   (length_map _ _) (line_revenue_bound Hsafe))|].
  split; [apply months_of_revenue|].
  apply months_total_revenue. now rewrite length_map.
Qed.

(** X2 at the table of one order of one line. *)
Lemma X2_witness :
  one_order <> [] /\ int64_safe one_order
  /\ exists count_data revenue_data order_data df1 months df2 revenues,
       analyse_data (load_lines one_order)
       = Ok (count_data, revenue_data, order_data, df1)
       /\ analyse_profitability_over_time df1 = Ok (months, df2)
       /\ map MonthBucket.Revenue months = map CInt revenues
       /\ Zsum revenues
          = Zsum (map (fun l => LQTY l * UnitPrice l) one_order)
            + 15 * distinct_orders one_order.
Proof.
  split; [exact one_order_nonempty|]. split; [exact one_order_safe|].
  exact (X2_monthly_revenue_after_analyse_data one_order_nonempty one_order_safe).
Defined.

(** X3.  On a table of integers on which no 64-bit operation wraps around,
    the Revenue and the Profit column of the product table each carry the
    fee once per distinct order. *)
Theorem X3_product_totals (ls : list Line) (Hsafe : int64_safe ls) :
  exists product_analysis df,
    analyse_product_sales (load_lines ls) = Ok (product_analysis, df)
    /\ Zsum (map Product.Revenue product_analysis)
       = Zsum (map (fun l => LQTY l * UnitPrice l) ls) + 15 * distinct_orders ls
    /\ Zsum (map Product.Profit product_analysis)
       = Zsum (map (fun l => (UnitPrice l - UnitCost l) * LQTY l) ls)
         + 15 * distinct_orders ls.
Proof.
  rewrite load_lines_frame, analyse_product_sales_frame by assumption.
  do 2 eexists. split; [reflexivity|].
  split; [apply products_total_revenue | apply products_total_profit].
Qed.

(** X3 at the table of one order of one line. *)
Lemma X3_witness :
  int64_safe one_order
  /\ exists product_analysis df,
       analyse_product_sales (load_lines one_order) = Ok (product_analysis, df)
       /\ Zsum (map Product.Revenue product_analysis)
          = Zsum (map (fun l => LQTY l * UnitPrice l) one_order)
            + 15 * distinct_orders one_order
       /\ Zsum (map Product.Profit product_analysis)
          = Zsum (map (fun l => (UnitPrice l - UnitCost l) * LQTY l) one_order)
            + 15 * distinct_orders one_order.
Proof.
  split; [exact one_order_safe | exact (X3_product_totals one_order_safe)].
Defined.

(** X4.  The First Purchase Counts of the affinity table add up to the number
    of distinct emails of the input: one first-purchase line per customer. *)
Theorem X4_one_first_purchase_line_per_customer (ls : list Line) :
  exists purchase_analysis,
    analyse_first_and_repeat_purchases (load_lines ls) = Ok purchase_analysis
    /\ Zsum (map Affinity.First_Purchase_Count purchase_analysis)
       = Z.of_nat (List.length (unique_strings (map LEmail ls))).
Proof.
  rewrite load_lines_frame, analyse_first_and_repeat_purchases_frame.
  eexists. split; [reflexivity | apply first_purchase_total].
Qed.

(* ================================================================== *)
(** * Sorted results *)

Lemma adjacent_cons {A} (R : A -> A -> Prop) x l :
  adjacent R l -> (forall y, hd_error l = Some y -> R x y) -> adjacent R (x :: l).
Proof.
  destruct l as [|y l]; simpl; [trivial|]. intros H Hx. split; auto.
Qed.

Lemma insert_by_hd {A} (le : A -> A -> bool) x l z :
  hd_error (insert_by le x l) = Some z -> z = x \/ hd_error l = Some z.
Proof.
  destruct l as [|y l]; simpl.
  - intros H. injection H as <-. now left.
  - destruct (le x y); simpl; intros H; injection H as <-; auto.
Qed.

Lemma insert_by_adjacent {A} (le : A -> A -> bool) x l :
  (forall a b, le a b = true \/ le b a = true) ->
  adjacent (fun a b => le a b = true) l ->
  adjacent (fun a b => le a b = true) (insert_by le x l).
Proof.
  intros Htot. induction l as [|y l IH]; intros Hl; [exact I|].
  simpl insert_by. destruct (le x y) eqn:Hxy.
  - apply adjacent_cons; [assumption|]. simpl. intros z Hz.
    injection Hz as <-. assumption.
  - assert (Hyx : le y x = true) by (destruct (Htot x y); congruence).
    apply adjacent_cons.
    + apply IH. destruct l; [exact I | apply Hl].
    + intros z Hz. apply insert_by_hd in Hz. destruct Hz as [->|Hz]; [assumption|].
      destruct l as [|w l]; [discriminate|]. simpl in Hz. injection Hz as <-.
      apply Hl.
Qed.

(** Insertion sort by a total comparison orders every element before its
    successor. *)
Lemma sort_by_adjacent {A} (le : A -> A -> bool) l :
  (forall a b, le a b = true \/ le b a = true) ->
  adjacent (fun a b => le a b = true) (sort_by le l).
Proof.
  intros Htot. induction l as [|x l IH]; simpl; [exact I|].
  now apply insert_by_adjacent.
Qed.

Lemma adjacent_map {A B} (R : B -> B -> Prop) (f : A -> B) l :
  adjacent R (map f l) <-> adjacent (fun a b => R (f a) (f b)) l.
Proof.
  induction l as [|x l IH]; simpl; [tauto|].
  destruct l as [|y l]; simpl in *; [tauto|]. rewrite IH. tauto.
Qed.

Lemma adjacent_impl {A} (R Q : A -> A -> Prop) l :
  (forall a b, R a b -> Q a b) -> adjacent R l -> adjacent Q l.
Proof.
  intros H. induction l as [|x l IH]; simpl; [trivial|].
  destruct l as [|y l]; [trivial|]. intros [H1 H2]. split; auto.
Qed.

Lemma sort_by_key_ascending {A} (key : A -> Z) l :
  adjacent Z.le (map key (sort_by (fun a b => key a <=? key b) l)).
Proof.
  apply adjacent_map.
  eapply adjacent_impl; [|apply sort_by_adjacent].
  - intros a b H. cbv beta in H. lia.
  - intros a b. cbv beta. lia.
Qed.

Lemma sort_by_key_descending {A} (key : A -> Z) l :
  adjacent Z.ge (map key (sort_by (fun a b => key b <=? key a) l)).
Proof.
  apply adjacent_map.
  eapply adjacent_impl; [|apply sort_by_adjacent].
  - intros a b H. cbv beta in H. lia.
  - intros a b. cbv beta. lia.
Qed.

Lemma unique_strings_length_map {A} (f : string -> A) l :
  List.length (map f (unique_strings l)) = List.length (unique_strings l).
Proof. apply length_map. Qed.

(** ** The order table *)




(** ** The cohort matrices *)

Lemma unique_strings_sorted l :
  adjacent (fun a b => String.leb a b = true) (unique_strings l).
Proof. unfold unique_strings. apply sort_by_adjacent, String.leb_total. Qed.

Lemma orders_of_type ls o :
  In o (orders_of ls) ->
  Order.Customer_Type o = "First-time" \/ Order.Customer_Type o = "Repeat".
Proof.
  unfold orders_of. intros H. apply in_map_iff in H. destruct H as [s [<- _]].
  cbn [classified Order.Customer_Type]. destruct (_ <? _); auto.
Qed.

Lemma orders_of_first_time ls o :
  In o (orders_of ls) ->
  exists o1, In o1 (orders_of ls) /\ Order.Customer_Type o1 = "First-time".
Proof.
  unfold orders_of. intros H. apply in_map_iff in H. destruct H as [s [_ Hs]].
  destruct (earliest_attained _ _ Hs) as [s1 [Hs1 [He1 Hd1]]].
  exists (classified (sorted_orders ls) s1). split; [now apply in_map|].
  cbn [classified Order.Customer_Type]. rewrite He1, <- Hd1.
  now rewrite Z.ltb_irrefl.
Qed.

(** The customer types that occur in an order table: none for an empty table,
    otherwise First-time alone or First-time and Repeat. *)
Lemma customer_types_cases ls :
  let types := unique_strings (map Order.Customer_Type (orders_of ls)) in
  (orders_of ls = [] /\ types = [])
  \/ types = ["First-time"] \/ types = ["First-time"; "Repeat"].
Proof.
  cbv zeta. set (types := unique_strings _).
  assert (Hin : forall t, In t types -> t = "First-time" \/ t = "Repeat").
  { intros t Ht. apply (proj1 (unique_strings_In _ _)) in Ht.
    apply in_map_iff in Ht.
    destruct Ht as [o [<- Ho]]. now apply orders_of_type in Ho. }
  assert (Hfirst : forall t, In t types -> In "First-time" types).
  { intros t Ht. apply (proj1 (unique_strings_In _ _)) in Ht.
    apply in_map_iff in Ht.
    destruct Ht as [o [_ Ho]]. destruct (orders_of_first_time _ _ Ho) as [o1 [Ho1 Ht1]].
    apply unique_strings_In. rewrite <- Ht1. now apply in_map. }
  pose proof (unique_strings_NoDup (map Order.Customer_Type (orders_of ls))) as Hnd.
  pose proof (unique_strings_sorted (map Order.Customer_Type (orders_of ls))) as Hs.
  fold types in Hnd, Hs.
  assert (Hempty : types = [] -> orders_of ls = []).
  { intros E. destruct (orders_of ls) as [|o os] eqn:Eo; [reflexivity|].
    exfalso. assert (Ho : In (Order.Customer_Type o) types).
    { apply unique_strings_In. try rewrite Eo. now left. }
    rewrite E in Ho. exact Ho. }
  destruct types as [|a [|b rest]].
  - left. split; [now apply Hempty | reflexivity].
  - right. left. destruct (Hin a (or_introl eq_refl)) as [->| ->]; [reflexivity|].
    destruct (Hfirst "Repeat" (or_introl eq_refl)) as [H|[]]. discriminate.
  - right. right.
    assert (Ha := Hin a (or_introl eq_refl)).
    assert (Hb := Hin b (or_intror (or_introl eq_refl))).
    inversion Hnd as [|? ? Hna Hnd']; subst. inversion Hnd' as [|? ? Hnb Hnd'']; subst.
    destruct rest as [|c rest].
    + destruct Ha as [-> | ->], Hb as [-> | ->]; try reflexivity.
      * exfalso. apply Hna. now left.
      * destruct Hs as [Hs _]. vm_compute in Hs. discriminate.
      * exfalso. apply Hna. now left.
    + exfalso. assert (Hc := Hin c (or_intror (or_intror (or_introl eq_refl)))).
      destruct Ha as [-> | ->], Hb as [-> | ->], Hc as [-> | ->];
        simpl in Hna, Hnb; tauto.
Qed.

Lemma ensure_columns_names value ls :
  map fst (Matrix.columns (ensure_columns (unstack value (orders_of ls))))
  = ["First-time"; "Repeat"].
Proof.
  unfold unstack.
  destruct (customer_types_cases ls) as [[_ E]|[E|E]]; cbv zeta in E;
    rewrite E; reflexivity.
Qed.

Lemma two_columns_exact (cols : list (string * list Z)) a b :
  map fst cols = ["First-time"; "Repeat"] ->
  In ("First-time", a) cols -> In ("Repeat", b) cols ->
  cols = [("First-time", a); ("Repeat", b)].
Proof.
  destruct cols as [|[n1 c1] [|[n2 c2] [|? ?]]]; simpl; try discriminate.
  intros H. injection H as -> ->.
  intros [Ha|[Ha|[]]] [Hb|[Hb|[]]]; try discriminate.
  injection Ha as ->. injection Hb as ->. reflexivity.
Qed.

Lemma Zsum_Z_groups {A} (key : A -> Z) (f : A -> Z) l :
  Zsum (map (fun m => Zsum (map f (filter (fun o => key o =? m) l)))
            (unique_Z (map key l)))
  = Zsum (map f l).
Proof.
  rewrite <- (@Zsum_groups _ Z.eqb Z.eqb_eq (unique_Z (map key l)) (map key l)
                           (map f l)).
  - f_equal. apply map_ext. intros m. rewrite map_map.
    rewrite take_rows_filter. f_equal. f_equal. apply filter_ext.
    intros o. apply Z.eqb_sym.
  - apply unique_Z_NoDup.
  - intros x Hx. now apply unique_Z_In.
  - now rewrite !length_map.
Qed.

Lemma in_cohort_split (f : Order.row -> Z) m l :
  (forall o, In o l -> Order.Customer_Type o = "First-time"
                       \/ Order.Customer_Type o = "Repeat") ->
  Zsum (map f (filter (in_cohort m "First-time") l))
  + Zsum (map f (filter (in_cohort m "Repeat") l))
  = Zsum (map f (filter (fun o => Order.Month_Year o =? m) l)).
Proof.
  induction l as [|o l IH]; intros H; [reflexivity|].
  specialize (IH (fun o' Ho' => H o' (or_intror Ho'))).
  simpl filter.
  assert (E : forall t, in_cohort m t o
                        = (Order.Month_Year o =? m)
                          && (Order.Customer_Type o =? t)%string) by reflexivity.
  rewrite !E. destruct (Order.Month_Year o =? m); cbn [andb]; [|exact IH].
  destruct (H o (or_introl eq_refl)) as [Ht|Ht]; rewrite Ht; simpl; lia.
Qed.

(** X6.  On a table of integers with at least one line on which no 64-bit
    operation wraps around, the two cohort matrices have exactly the value
    columns First-time and Repeat, in this order, and one row per distinct
    month of the order table in ascending order.  In every month row the two
    counts add up to the number of orders of that month and the two revenues
    to the summed Revenue of those orders; over all rows the counts add up to
    the number of orders and the revenues to the total of the order table. *)
Theorem X6_cohort_matrices_partition_orders (ls : list Line)
    (Hne : ls <> []) (Hsafe : int64_safe ls) :
  exists count_data revenue_data order_data df' cf cr rf rr,
    analyse_data (load_lines ls) = Ok (count_data, revenue_data, order_data, df')
    /\ Matrix.columns count_data = [("First-time", cf); ("Repeat", cr)]
    /\ Matrix.columns revenue_data = [("First-time", rf); ("Repeat", rr)]
    /\ let months := unique_Z (map Order.Month_Year order_data) in
       let in_month m := filter (fun o => Order.Month_Year o =? m) order_data in
       NoDup months /\ adjacent Z.le months
       /\ Matrix.Month_Year count_data = map period_str months
       /\ Matrix.Month_Year revenue_data = map period_str months
       /\ zip_with Z.add cf cr
          = map (fun m => Z.of_nat (List.length (in_month m))) months
       /\ zip_with Z.add rf rr
          = map (fun m => Zsum (map Order.Revenue (in_month m))) months
       /\ Zsum cf + Zsum cr = Z.of_nat (List.length order_data)
       /\ Zsum rf + Zsum rr = Zsum (map Order.Revenue order_data).
Proof.
  rewrite load_lines_frame, analyse_data_frame by assumption.
  do 8 eexists. split; [reflexivity|].
  pose proof (fun v Hv c Hc => @ensure_columns_cohort v (orders_of ls) c Hv Hc) as Hcol.
  split; [|split].
  - apply two_columns_exact; [apply ensure_columns_names| |];
      apply Hcol; auto.
  - apply two_columns_exact; [apply ensure_columns_names| |];
      apply Hcol; auto.
  - cbv zeta. rewrite !ensure_columns_months. cbn [unstack Matrix.Month_Year].
    split; [apply unique_Z_NoDup|]. split.
    { unfold unique_Z. eapply adjacent_impl; [|apply sort_by_adjacent].
      - intros a b H. cbv beta in H. lia.
      - intros a b. lia. }
    split; [reflexivity|]. split; [reflexivity|].
    set (one := fun _ : Order.row => 1).
    assert (Hlen : forall l : list Order.row, Z.of_nat (List.length l) = Zsum (map one l)).
    { intros l. unfold one. rewrite Zsum_map_const. lia. }
    unfold cohort_column. rewrite !zip_with_map.
    split; [|split; [|split]].
    + apply map_ext. intros m. rewrite !Hlen.
      apply in_cohort_split. apply orders_of_type.
    + apply map_ext. intros m. apply in_cohort_split. apply orders_of_type.
    + rewrite <- Zsum_map_add, Hlen, <- (Zsum_Z_groups Order.Month_Year one).
      f_equal. apply map_ext. intros m. rewrite !Hlen.
      apply in_cohort_split. apply orders_of_type.
    + rewrite <- Zsum_map_add, <- (Zsum_Z_groups Order.Month_Year Order.Revenue).
      f_equal. apply map_ext. intros m.
      apply in_cohort_split. apply orders_of_type.
Qed.

(** X6 at the table of two orders of one customer on the same day. *)
Lemma X6_witness :
  same_day_orders <> [] /\ int64_safe same_day_orders
  /\ exists count_data revenue_data order_data df' cf cr rf rr,
       analyse_data (load_lines same_day_orders)
       = Ok (count_data, revenue_data, order_data, df')
       /\ Matrix.columns count_data = [("First-time", cf); ("Repeat", cr)]
       /\ Matrix.columns revenue_data = [("First-time", rf); ("Repeat", rr)]
       /\ let months := unique_Z (map Order.Month_Year order_data) in
          let in_month m := filter (fun o => Order.Month_Year o =? m) order_data in
          NoDup months /\ adjacent Z.le months
          /\ Matrix.Month_Year count_data = map period_str months
          /\ Matrix.Month_Year revenue_data = map period_str months
          /\ zip_with Z.add cf cr
             = map (fun m => Z.of_nat (List.length (in_month m))) months
          /\ zip_with Z.add rf rr
             = map (fun m => Zsum (map Order.Revenue (in_month m))) months
          /\ Zsum cf + Zsum cr = Z.of_nat (List.length order_data)
          /\ Zsum rf + Zsum rr = Zsum (map Order.Revenue order_data).
Proof.
  assert (Hne : same_day_orders <> []) by discriminate.
  assert (Hs : int64_safe same_day_orders)
    by (unfold int64_safe; vm_compute; discriminate).
  split; [exact Hne|]. split; [exact Hs|].
  exact (X6_cohort_matrices_partition_orders Hne Hs).
Defined.

(* ================================================================== *)
(** * Where the fee lands *)

(** Within a group of rows, the fee added on flagged rows comes to 15 per
    flagged row of the group. *)
Lemma Zsum_take_with_fee {X} (t : X -> bool) mask (xs : list X) (col : list Z) :
  List.length mask = List.length xs -> List.length col = List.length xs ->
  Zsum (take_rows (map t xs) (with_fee mask col))
  = Zsum (take_rows (map t xs) col)
    + 15 * Z.of_nat (List.length (filter t (take_rows mask xs))).
Proof.
  unfold with_fee, zip_with. revert mask col.
  induction xs as [|x xs IH]; intros [|b mask] [|z col] Hm Hc; simpl in Hm, Hc;
    try discriminate; [reflexivity|].
  specialize (IH mask col ltac:(lia) ltac:(lia)).
  cbn [map combine fst snd take_rows].
  destruct (t x) eqn:Ht, b; cbn [filter take_rows]; rewrite ?Ht;
    cbn [Zsum fold_right List.length]; fold (Zsum (take_rows (map t xs) col));
    fold (Zsum (take_rows (map t xs)
                 (map (fun p : bool * Z => if fst p then snd p + 15 else snd p)
                      (combine mask col)))); lia.
Qed.

Lemma take_rows_group_mask ls k :
  take_rows (group_mask k (map LSKU ls)) ls = sku_lines ls k.
Proof.
  unfold group_mask, sku_lines. rewrite map_map.
  rewrite <- (map_id ls) at 2. rewrite take_rows_filter. apply map_id.
Qed.

Lemma group_with_fee_lines (t : Line -> bool) (f : Line -> Z) ls :
  Zsum (take_rows (map t ls) (with_fee (first_items ls) (map f ls)))
  = Zsum (map f (filter t ls))
    + 15 * Z.of_nat (List.length (filter t (first_lines ls))).
Proof.
  rewrite Zsum_take_with_fee.
  - now rewrite take_rows_filter.
  - apply first_items_length.
  - apply length_map.
Qed.

Lemma products_of_sku ls sku :
  In sku (map LSKU ls) ->
  filter (fun r => (Product.SKU r =? sku)%string) (products_of ls)
  = [product_of ls sku].
Proof.
  intros H. unfold products_of.
  apply Permutation_length_1_inv. symmetry.
  etransitivity; [apply filter_perm, sort_by_perm|].
  rewrite filter_map_comm. cbn [product_of Product.SKU].
  rewrite filter_key_NoDup; [reflexivity | apply unique_strings_NoDup|].
  now apply unique_strings_In.
Qed.

Lemma products_of_skus ls r :
  In r (products_of ls) -> In (Product.SKU r) (map LSKU ls).
Proof.
  unfold products_of. rewrite sort_by_In, in_map_iff.
  intros [k [<- Hk]]. cbn [product_of Product.SKU].
  exact (proj1 (unique_strings_In _ _) Hk).
Qed.

(** X7.  On a table of integers on which no 64-bit operation wraps around,
    the product table has exactly one row for every distinct SKU and no other
    row, in descending order of Revenue.  The row of a SKU holds the summed
    QTY of the SKU's lines; its Revenue and its Profit are the line totals of
    the SKU plus 15 for every order whose first line in file order has that
    SKU (a SKU that only occurs on later lines of its orders carries no
    fee); its Profit Margin is the quotient Profit / Revenue, NaN or infinite
    when Revenue is 0. *)
Theorem X7_product_rows (ls : list Line) (Hsafe : int64_safe ls) :
  exists product_analysis df,
    analyse_product_sales (load_lines ls) = Ok (product_analysis, df)
    /\ (forall r, In r product_analysis -> In (Product.SKU r) (map LSKU ls))
    /\ adjacent Z.ge (map Product.Revenue product_analysis)
    /\ forall sku, In sku (map LSKU ls) ->
         exists r,
           filter (fun r => (Product.SKU r =? sku)%string) product_analysis = [r]
           /\ let g := sku_lines ls sku in
              let fees := 15 * Z.of_nat (List.length (sku_lines (first_lines ls) sku)) in
              Product.QTY r = CInt (Zsum (map LQTY g))
              /\ Product.Revenue r
                 = Zsum (map (fun l => LQTY l * UnitPrice l) g) + fees
              /\ Product.Profit r
                 = Zsum (map (fun l => (UnitPrice l - UnitCost l) * LQTY l) g) + fees
              /\ Product.Profit_Margin r
                 = truediv (Product.Profit r) (Product.Revenue r).
Proof.
  rewrite load_lines_frame, analyse_product_sales_frame by assumption.
  do 2 eexists. split; [reflexivity|]. split; [|split].
  - apply products_of_skus.
  - unfold products_of, revenue_desc. apply sort_by_key_descending.
  - intros sku Hsku. eexists. split; [now apply products_of_sku|].
    cbv zeta.
    cbn [product_of Product.QTY Product.Revenue Product.Profit Product.Unit_Price
         Product.Unit_Cost Product.Profit_Margin].
    rewrite !take_rows_group_mask.
    unfold group_mask. rewrite map_map, !group_with_fee_lines.
    fold (sku_lines ls sku). fold (sku_lines (first_lines ls) sku).
    repeat split.
Qed.

(** X7 at the table of one order with a line of SKU "A" and a line of
    SKU "B". *)
Lemma X7_witness :
  int64_safe two_line_first_order
  /\ exists product_analysis df,
       analyse_product_sales (load_lines two_line_first_order)
       = Ok (product_analysis, df)
       /\ (forall r, In r product_analysis ->
                     In (Product.SKU r) (map LSKU two_line_first_order))
       /\ adjacent Z.ge (map Product.Revenue product_analysis)
       /\ forall sku, In sku (map LSKU two_line_first_order) ->
            exists r,
              filter (fun r => (Product.SKU r =? sku)%string) product_analysis = [r]
              /\ let g := sku_lines two_line_first_order sku in
                 let fees :=
                   15 * Z.of_nat (List.length
                                    (sku_lines (first_lines two_line_first_order) sku)) in
                 Product.QTY r = CInt (Zsum (map LQTY g))
                 /\ Product.Revenue r
                    = Zsum (map (fun l => LQTY l * UnitPrice l) g) + fees
                 /\ Product.Profit r
                    = Zsum (map (fun l => (UnitPrice l - UnitCost l) * LQTY l) g)
                      + fees
                 /\ Product.Profit_Margin r
                    = truediv (Product.Profit r) (Product.Revenue r).
Proof.
  assert (Hs : int64_safe two_line_first_order)
    by (unfold int64_safe; vm_compute; discriminate).
  split; [exact Hs | exact (X7_product_rows Hs)].
Defined.

Lemma Forall2_map_combine {A B C} (P : A -> C -> Prop) (h : A * B -> C) a b :
  List.length a = List.length b ->
  (forall x y, In x a -> P x (h (x, y))) ->
  Forall2 P a (map h (combine a b)).
Proof.
  revert b. induction a as [|x a IH]; intros [|y b] Hlen H; simpl in Hlen;
    try discriminate; [constructor|].
  cbn [combine map]. constructor; [apply H; now left|].
  apply IH; [lia|]. intros x' y' Hx'. apply H. now right.
Qed.

(** X8.  On a table of integers with at least one line on which no 64-bit
    operation wraps around, in the pipeline of [main] the monthly table has
    exactly one row for every distinct month of Date placed, in ascending
    order of its Date placed column (the first instant of the month).  The
    Profit of a month is the line profit of the month's lines plus 15 for
    every order whose first line falls in that month; its Revenue is the
    line revenue of the month's lines plus 30 for every such order. *)
Theorem X8_monthly_rows (ls : list Line)
    (Hne : ls <> []) (Hsafe : int64_safe ls) :
  exists out months,
    main (map raw_of_line ls) = Ok out
    /\ NoDup months
    /\ (forall m, In m months <-> In m (map to_period_M (map DatePlaced ls)))
    /\ adjacent Z.le (map MonthBucket.Date_placed (profitability_data out))
    /\ Forall2
         (fun m row =>
            MonthBucket.Date_placed row = to_timestamp m
            /\ let orders := Z.of_nat (List.length (month_lines (first_lines ls) m)) in
               MonthBucket.Profit row
               = CInt (Zsum (map (fun l => (UnitPrice l - UnitCost l) * LQTY l)
                                 (month_lines ls m)) + 15 * orders)
               /\ MonthBucket.Revenue row
                  = CInt (Zsum (map (fun l => LQTY l * UnitPrice l)
                                    (month_lines ls m)) + 30 * orders))
         months (profitability_data out).
Proof.
  rewrite main_lines by assumption. eexists. exists (sorted_months ls).
  split; [reflexivity|]. cbn [profitability_data].
  assert (Hlen : List.length (running_sum (map (month_profit ls) (sorted_months ls)))
                 = List.length (sorted_months ls))
    by (unfold running_sum; now rewrite running_from_length, length_map).
  split; [|split; [|split]].
  - unfold sorted_months.
    eapply Permutation_NoDup; [apply Permutation_sym, sort_by_perm|].
    apply unique_Z_NoDup.
  - intros m. unfold sorted_months. rewrite sort_by_In. apply unique_Z_In.
  - unfold months_of. rewrite map_map. cbn [MonthBucket.Date_placed].
    rewrite (map_fst_combine_with to_timestamp) by now rewrite Hlen.
    unfold sorted_months. apply sort_by_key_ascending.
  - unfold months_of. apply Forall2_map_combine; [now rewrite Hlen|].
    intros m c _. cbn [fst snd MonthBucket.Date_placed MonthBucket.Profit
                       MonthBucket.Revenue].
    split; [reflexivity|]. cbv zeta.
    unfold month_profit, month_revenue, periods. rewrite !map_map.
    rewrite (group_with_fee_lines (fun l => m =? to_period_M (DatePlaced l))).
    rewrite Zsum_take_with_fee;
      [|apply first_items_length | apply revenue_after_products_length].
    unfold revenue_after_products.
    rewrite (group_with_fee_lines (fun l => m =? to_period_M (DatePlaced l))).
    fold (first_lines ls). fold (month_lines ls m).
    fold (month_lines (first_lines ls) m).
    split; f_equal. unfold line_revenue. lia.
Qed.

(** X8 at the table of one order of one line. *)
Lemma X8_witness :
  one_order <> [] /\ int64_safe one_order
  /\ exists out months,
       main (map raw_of_line one_order) = Ok out
       /\ NoDup months
       /\ (forall m, In m months
                      <-> In m (map to_period_M (map DatePlaced one_order)))
       /\ adjacent Z.le (map MonthBucket.Date_placed (profitability_data out))
       /\ Forall2
            (fun m row =>
               MonthBucket.Date_placed row = to_timestamp m
               /\ let orders :=
                    Z.of_nat (List.length (month_lines (first_lines one_order) m)) in
                  MonthBucket.Profit row
                  = CInt (Zsum (map (fun l => (UnitPrice l - UnitCost l) * LQTY l)
                                    (month_lines one_order m)) + 15 * orders)
                  /\ MonthBucket.Revenue row
                     = CInt (Zsum (map (fun l => LQTY l * UnitPrice l)
                                       (month_lines one_order m)) + 30 * orders))
            months (profitability_data out).
Proof.
  split; [exact one_order_nonempty|]. split; [exact one_order_safe|].
  exact (X8_monthly_rows one_order_nonempty one_order_safe).
Defined.

(* ================================================================== *)
(** * Cumulative profit, row by row *)

Lemma running_from_nth l acc i :
  (i < List.length l)%nat ->
  nth i (running_from acc l) 0 = acc + Zsum (firstn (S i) l).
Proof.
  revert acc i. induction l as [|x l IH]; intros acc i Hi; simpl in Hi; [lia|].
  destruct i as [|i].
  - simpl. destruct l; simpl; lia.
  - change (nth (S i) (running_from acc (x :: l)) 0)
      with (nth i (running_from (acc + x) l) 0).
    rewrite IH by lia.
    change (firstn (S (S i)) (x :: l)) with (x :: firstn (S i) l).
    simpl Zsum. lia.
Qed.

Lemma last_cons {A} (a : A) l d : last (a :: l) d = last l a.
Proof.
  revert a d. induction l as [|b l IH]; intros a d; [reflexivity|].
  change (last (a :: b :: l) d) with (last (b :: l) d).
  now rewrite !IH.
Qed.

Lemma running_from_last l acc : last (running_from acc l) acc = acc + Zsum l.
Proof.
  revert acc. induction l as [|x l IH]; intros acc; simpl running_from.
  - simpl. lia.
  - rewrite last_cons, IH. simpl. lia.
Qed.

Lemma months_total_profit ls :
  Zsum (map (month_profit ls) (sorted_months ls))
  = Zsum (map line_profit ls) + 15 * distinct_orders ls.
Proof.
  unfold sorted_months.
  rewrite (Zsum_map_perm (month_profit ls) (sort_by_perm _ _)).
  unfold month_profit. rewrite (Zsum_groups Z.eqb Z.eqb_eq).
  - apply Zsum_with_fee_first_items.
  - apply unique_Z_NoDup.
  - intros x Hx. now apply unique_Z_In.
  - rewrite with_fee_length; rewrite ?first_items_length; unfold periods;
      now rewrite ?length_map.
Qed.

(** X9.  On a table of integers with at least one line on which no 64-bit
    operation wraps around, in the monthly table the Cumulative Profit of
    row i is the sum of the Profit of rows 0 to i, and the last Cumulative
    Profit is the total profit of the table: the sum of
    (Unit Price - Unit Cost) x QTY over all lines plus 15 per distinct
    order. *)
Theorem X9_cumulative_profit_rows (ls : list Line)
    (Hne : ls <> []) (Hsafe : int64_safe ls) :
  exists out profits cumulative,
    main (map raw_of_line ls) = Ok out
    /\ map MonthBucket.Profit (profitability_data out) = map CInt profits
    /\ map MonthBucket.Cumulative_Profit (profitability_data out)
       = map CInt cumulative
    /\ List.length cumulative = List.length profits
    /\ (forall i, (i < List.length profits)%nat ->
                  nth i cumulative 0 = Zsum (firstn (S i) profits))
    /\ last cumulative 0
       = Zsum (map (fun l => (UnitPrice l - UnitCost l) * LQTY l) ls)
         + 15 * distinct_orders ls.
Proof.
  rewrite main_lines by assumption. do 3 eexists. split; [reflexivity|].
  cbn [profitability_data].
  split; [apply months_of_profit|]. split; [apply months_of_cumulative|].
  unfold running_sum. split; [apply running_from_length|]. split.
  - intros i Hi. rewrite running_from_nth by exact Hi. lia.
  - rewrite running_from_last, months_total_profit. reflexivity.
Qed.

(** X9 at the table of one order of one line. *)
Lemma X9_witness :
  one_order <> [] /\ int64_safe one_order
  /\ exists out profits cumulative,
       main (map raw_of_line one_order) = Ok out
       /\ map MonthBucket.Profit (profitability_data out) = map CInt profits
       /\ map MonthBucket.Cumulative_Profit (profitability_data out)
          = map CInt cumulative
       /\ List.length cumulative = List.length profits
       /\ (forall i, (i < List.length profits)%nat ->
                     nth i cumulative 0 = Zsum (firstn (S i) profits))
       /\ last cumulative 0
          = Zsum (map (fun l => (UnitPrice l - UnitCost l) * LQTY l) one_order)
            + 15 * distinct_orders one_order.
Proof.
  split; [exact one_order_nonempty|]. split; [exact one_order_safe|].
  exact (X9_cumulative_profit_rows one_order_nonempty one_order_safe).
Defined.

(* ================================================================== *)
(** * Running the functions again, or in another order *)

(** X10.  On a table with at least one line, the order table, the cohort
    matrices, the product table and the affinity table depend only on the
    input columns of the frame: whatever Revenue, Profit and Is_First_Item
    columns earlier calls have left on it, [analyse_data],
    [analyse_product_sales] and [analyse_first_and_repeat_purchases] return
    what they return on the freshly loaded frame, and each of the first two,
    run again on the frame it has left behind, returns the same tables and
    leaves the same frame. *)
Theorem X10_results_independent_of_derived_columns (ls : list Line)
    (revenue profit : option (list cell)) (flags : option (list bool))
    (Hne : ls <> []) :
  exists count_data revenue_data order_data df1 products df2 affinity,
    analyse_data (load_lines ls) = Ok (count_data, revenue_data, order_data, df1)
    /\ analyse_product_sales (load_lines ls) = Ok (products, df2)
    /\ analyse_first_and_repeat_purchases (load_lines ls) = Ok affinity
    /\ (exists df,
          analyse_data (frame_of ls revenue profit flags)
          = Ok (count_data, revenue_data, order_data, df))
    /\ analyse_product_sales (frame_of ls revenue profit flags) = Ok (products, df2)
    /\ analyse_first_and_repeat_purchases (frame_of ls revenue profit flags)
       = Ok affinity
    /\ analyse_data df1 = Ok (count_data, revenue_data, order_data, df1)
    /\ analyse_product_sales df2 = Ok (products, df2).
Proof.
  rewrite load_lines_frame, !analyse_data_frame64, !analyse_product_sales_frame64,
    !analyse_first_and_repeat_purchases_frame by assumption.
  do 7 eexists. split; [reflexivity|]. split; [reflexivity|].
  split; [reflexivity|]. split; [eexists; reflexivity|].
  split; [reflexivity|]. split; [reflexivity|].
  split; [now apply analyse_data_frame64|].
  unfold frame_after_products64. apply analyse_product_sales_frame64.
Qed.

(** X10 at the table of one order of one line, on a frame without derived
    columns. *)
Lemma X10_witness :
  one_order <> []
  /\ exists count_data revenue_data order_data df1 products df2 affinity,
       analyse_data (load_lines one_order)
       = Ok (count_data, revenue_data, order_data, df1)
       /\ analyse_product_sales (load_lines one_order) = Ok (products, df2)
       /\ analyse_first_and_repeat_purchases (load_lines one_order) = Ok affinity
       /\ (exists df,
             analyse_data (frame_of one_order None None None)
             = Ok (count_data, revenue_data, order_data, df))
       /\ analyse_product_sales (frame_of one_order None None None)
          = Ok (products, df2)
       /\ analyse_first_and_repeat_purchases (frame_of one_order None None None)
          = Ok affinity
       /\ analyse_data df1 = Ok (count_data, revenue_data, order_data, df1)
       /\ analyse_product_sales df2 = Ok (products, df2).
Proof.
  split; [exact one_order_nonempty|].
  exact (@X10_results_independent_of_derived_columns
           one_order None None None one_order_nonempty).
Defined.

(** X11.  On a table of integers with at least one line on which no 64-bit
    operation wraps around, [analyse_profitability_over_time] is not
    repeatable on the shared frame: run a second time on the frame its first
    run has left behind, it returns the same months with the same Profit and
    Cumulative Profit, but its Revenue figures add up to 15 per distinct
    order more than those of the first run. *)
Theorem X11_second_monthly_run_adds_the_fee_again (ls : list Line)
    (Hne : ls <> []) (Hsafe : int64_safe ls) :
  exists count_data revenue_data order_data df1 months1 df2 months2 df3
         revenues1 revenues2,
    analyse_data (load_lines ls) = Ok (count_data, revenue_data, order_data, df1)
    /\ analyse_profitability_over_time df1 = Ok (months1, df2)
    /\ analyse_profitability_over_time df2 = Ok (months2, df3)
    /\ map MonthBucket.Date_placed months2 = map MonthBucket.Date_placed months1
    /\ map MonthBucket.Profit months2 = map MonthBucket.Profit months1
    /\ map MonthBucket.Cumulative_Profit months2
       = map MonthBucket.Cumulative_Profit months1
    /\ map MonthBucket.Revenue months1 = map CInt revenues1
    /\ map MonthBucket.Revenue months2 = map CInt revenues2
    /\ Zsum revenues2 = Zsum revenues1 + 15 * distinct_orders ls.
Proof.
  rewrite load_lines_frame, analyse_data_frame by assumption.
  do 10 eexists. split; [reflexivity|].
  rewrite <- (map_map (fun l => LQTY l * UnitPrice l) CInt).
  split; [apply (@analyse_profitability_frame
                   ls Hsafe (map line_revenue ls)
                   (length_map _ _) (line_revenue_bound Hsafe))|].
  split; [apply (@analyse_profitability_frame
                   ls Hsafe (revenue_after_products ls)
                   (revenue_after_products_length ls)
                   (revenue_after_products_bound Hsafe))|].
  split.
  { unfold months_of. rewrite !map_map. reflexivity. }
  split; [now rewrite !months_of_profit|].
  split; [now rewrite !months_of_cumulative|].
  split; [apply months_of_revenue|]. split; [apply months_of_revenue|].
  rewrite !months_total_revenue.
  - unfold revenue_after_products. rewrite Zsum_with_fee_first_items. lia.
  - now rewrite length_map.
  - apply revenue_after_products_length.
Qed.

(** X11 at the table of one order of one line. *)
Lemma X11_witness :
  one_order <> [] /\ int64_safe one_order
  /\ exists count_data revenue_data order_data df1 months1 df2 months2 df3
            revenues1 revenues2,
       analyse_data (load_lines one_order)
       = Ok (count_data, revenue_data, order_data, df1)
       /\ analyse_profitability_over_time df1 = Ok (months1, df2)
       /\ analyse_profitability_over_time df2 = Ok (months2, df3)
       /\ map MonthBucket.Date_placed months2 = map MonthBucket.Date_placed months1
       /\ map MonthBucket.Profit months2 = map MonthBucket.Profit months1
       /\ map MonthBucket.Cumulative_Profit months2
          = map MonthBucket.Cumulative_Profit months1
       /\ map MonthBucket.Revenue months1 = map CInt revenues1
       /\ map MonthBucket.Revenue months2 = map CInt revenues2
       /\ Zsum revenues2 = Zsum revenues1 + 15 * distinct_orders one_order.
Proof.
  split; [exact one_order_nonempty|]. split; [exact one_order_safe|].
  exact (X11_second_monthly_run_adds_the_fee_again one_order_nonempty
                                                   one_order_safe).
Defined.

(* ================================================================== *)
(** * The affinity table *)

Lemma count_of_nonneg k l : 0 <= count_of k l.
Proof. unfold count_of. lia. Qed.

Lemma count_of_present k l : In k l -> 0 < count_of k l.
Proof.
  intros H. unfold count_of.
  destruct (filter (String.eqb k) l) as [|x r] eqn:E; [|simpl; lia].
  exfalso. assert (Hin : In k (filter (String.eqb k) l))
    by (apply filter_In; split; [assumption | apply String.eqb_refl]).
  rewrite E in Hin. exact Hin.
Qed.

(** X12.  The affinity table has one row per distinct SKU, in descending
    order of First Purchase Count.  Both counts of a row are non-negative
    and at least one is positive, so the Repeat to First Ratio is never NaN:
    it is the quotient of the counts, and infinite exactly for a SKU that no
    line flagged as a first purchase carries. *)
Theorem X12_affinity_rows (ls : list Line) :
  exists purchase_analysis,
    analyse_first_and_repeat_purchases (load_lines ls) = Ok purchase_analysis
    /\ List.length purchase_analysis = List.length (unique_strings (map LSKU ls))
    /\ adjacent Z.ge (map Affinity.First_Purchase_Count purchase_analysis)
    /\ forall r, In r purchase_analysis ->
         0 <= Affinity.First_Purchase_Count r
         /\ 0 <= Affinity.Repeat_Purchase_Count r
         /\ 0 < Affinity.First_Purchase_Count r + Affinity.Repeat_Purchase_Count r
         /\ Affinity.Repeat_to_First_Ratio r <> NaN
         /\ (Affinity.First_Purchase_Count r = 0 <->
             Affinity.Repeat_to_First_Ratio r = Inf)
         /\ (Affinity.First_Purchase_Count r <> 0 <->
             Affinity.Repeat_to_First_Ratio r
             = Ratio (Affinity.Repeat_Purchase_Count r)
                     (Affinity.First_Purchase_Count r)).
Proof.
  rewrite load_lines_frame, analyse_first_and_repeat_purchases_frame.
  eexists. split; [reflexivity|]. split; [|split].
  - unfold affinity_of. rewrite sort_by_length, merge_counts_rows, length_map.
    apply Permutation_length, NoDup_Permutation; try apply unique_strings_NoDup.
    intros k. rewrite affinity_keys. symmetry. apply unique_strings_In.
  - unfold affinity_of, first_count_desc. apply sort_by_key_descending.
  - intros r Hr. pose proof (affinity_of_skus _ _ Hr) as Hsku.
    unfold affinity_of in Hr. apply sort_by_In in Hr.
    rewrite merge_counts_rows in Hr. apply in_map_iff in Hr.
    destruct Hr as [k [<- _]].
    cbn [affinity_row Affinity.SKU Affinity.First_Purchase_Count
         Affinity.Repeat_Purchase_Count Affinity.Repeat_to_First_Ratio] in *.
    pose proof (count_of_nonneg k (first_purchase_skus ls)) as Hf.
    pose proof (count_of_nonneg k (repeat_purchase_skus ls)) as Hr.
    pose proof (count_of_present _ _ Hsku) as Hpos.
    rewrite <- first_plus_repeat in Hpos.
    split; [assumption|]. split; [assumption|]. split; [assumption|].
    unfold truediv.
    destruct (Z.eqb_spec (count_of k (first_purchase_skus ls)) 0) as [E|E].
    + rewrite E in Hpos.
      destruct (Z.eqb_spec (count_of k (repeat_purchase_skus ls)) 0) as [E'|E'];
        [lia|].
      destruct (Z.ltb_spec 0 (count_of k (repeat_purchase_skus ls))); [|lia].
      split; [discriminate|]. split; [tauto|]. split; [tauto | discriminate].
    + split; [discriminate|]. split; [split; [tauto | discriminate]|].
      tauto.
Qed.

(** X13.  [analyse_first_and_repeat_purchases] reads the Email, Date placed
    and SKU columns and nothing else: it returns its table on every parsed
    file, also where QTY, Unit Price or Unit Cost hold text, and the table of
    a file of numeric lines does not change when its numeric cells are
    replaced; on a frame without one of the three columns it raises KeyError
    for the first one missing, in the order Email, Date placed, SKU. *)
Theorem X13_affinity_reads_three_columns :
  (forall rows, exists purchase_analysis,
      analyse_first_and_repeat_purchases (load_data rows) = Ok purchase_analysis
      /\ forall rows',
           map raw_Email rows' = map raw_Email rows ->
           map raw_Date_placed rows' = map raw_Date_placed rows ->
           map raw_SKU rows' = map raw_SKU rows ->
           analyse_first_and_repeat_purchases (load_data rows')
           = Ok purchase_analysis)
  /\ (forall df,
        Frame.Email df = None ->
        analyse_first_and_repeat_purchases df = Raise (KeyError ["Email"]))
  /\ (forall df,
        Frame.Email df <> None -> Frame.Date_placed df = None ->
        analyse_first_and_repeat_purchases df = Raise (KeyError ["Date placed"]))
  /\ (forall df,
        Frame.Email df <> None -> Frame.Date_placed df <> None ->
        Frame.SKU df = None ->
        analyse_first_and_repeat_purchases df = Raise (KeyError ["SKU"])).
Proof.
  split; [|split; [|split]].
  - intros rows. eexists. split; [reflexivity|].
    intros rows' He Hd Hs. unfold analyse_first_and_repeat_purchases, load_data.
    cbn [getitem bind Frame.Email Frame.Date_placed Frame.SKU].
    now rewrite He, Hd, Hs.
  - intros df H. unfold analyse_first_and_repeat_purchases. now rewrite H.
  - intros df He H. unfold analyse_first_and_repeat_purchases.
    destruct (Frame.Email df); [|congruence]. now rewrite H.
  - intros df He Hd H. unfold analyse_first_and_repeat_purchases.
    destruct (Frame.Email df); [|congruence].
    destruct (Frame.Date_placed df); [|congruence]. now rewrite H.
Qed.

(** X13 at the file with a text quantity and at the frame without QTY, from
    which the Email column is taken away as well. *)
Lemma X13_witness :
  (exists purchase_analysis,
     analyse_first_and_repeat_purchases (load_data text_quantity)
     = Ok purchase_analysis)
  /\ analyse_first_and_repeat_purchases
       (Frame.mk None None None None None None None None None None None)
     = Raise (KeyError ["Email"]).
Proof.
  split.
  - destruct (proj1 X13_affinity_reads_three_columns text_quantity) as [t [H _]].
    exists t. exact H.
  - exact (proj1 (proj2 X13_affinity_reads_three_columns)
                 (Frame.mk None None None None None None None None None None None)
                 eq_refl).
Defined.

(* ================================================================== *)
(** * The frame shown as raw data *)

Lemma with_fee_twice mask (f : Line -> Z) ls :
  with_fee mask (with_fee mask (map f ls))
  = zip_with (fun (b : bool) l => f l + (if b then 30 else 0)) mask ls.
Proof.
  unfold with_fee, zip_with. revert mask.
  induction ls as [|l ls IH]; intros [|b mask]; try reflexivity.
  cbn [map combine fst snd]. rewrite IH. f_equal. destruct b; lia.
Qed.

Lemma with_fee_once mask (f : Line -> Z) ls :
  with_fee mask (map f ls)
  = zip_with (fun (b : bool) l => f l + (if b then 15 else 0)) mask ls.
Proof.
  unfold with_fee, zip_with. revert mask.
  induction ls as [|l ls IH]; intros [|b mask]; try reflexivity.
  cbn [map combine fst snd]. rewrite IH. f_equal. destruct b; lia.
Qed.

(** X14.  On a table of integers with at least one line on which no 64-bit
    operation wraps around, [main] returns its tables, and the frame it shows
    as raw data is not the uploaded table: the eight input columns are
    unchanged, but it has the three further columns Revenue, Profit and
    Is_First_Item, where Is_First_Item flags the first line of each order,
    Revenue is QTY x Unit Price plus 30 on flagged lines and Profit is
    (Unit Price - Unit Cost) x QTY plus 15 on flagged lines. *)
Theorem X14_raw_data_is_the_mutated_frame (ls : list Line)
    (Hne : ls <> []) (Hsafe : int64_safe ls) :
  exists out,
    main (map raw_of_line ls) = Ok out
    /\ Frame.columns (raw_data out)
       = ["Order ID"; "Email"; "Date placed"; "Date Completed"; "SKU"; "QTY";
          "Unit Price"; "Unit Cost"; "Revenue"; "Profit"; "Is_First_Item"]
    /\ Frame.Order_ID (raw_data out) = Frame.Order_ID (load_lines ls)
    /\ Frame.Email (raw_data out) = Frame.Email (load_lines ls)
    /\ Frame.Date_placed (raw_data out) = Frame.Date_placed (load_lines ls)
    /\ Frame.Date_Completed (raw_data out) = Frame.Date_Completed (load_lines ls)
    /\ Frame.SKU (raw_data out) = Frame.SKU (load_lines ls)
    /\ Frame.QTY (raw_data out) = Frame.QTY (load_lines ls)
    /\ Frame.Unit_Price (raw_data out) = Frame.Unit_Price (load_lines ls)
    /\ Frame.Unit_Cost (raw_data out) = Frame.Unit_Cost (load_lines ls)
    /\ Frame.Is_First_Item (raw_data out)
       = Some (map negb (duplicated (map OrderID ls)))
    /\ Frame.Revenue (raw_data out)
       = Some (map CInt (zip_with
                 (fun (first_item : bool) l =>
                    LQTY l * UnitPrice l + (if first_item then 30 else 0))
                 (map negb (duplicated (map OrderID ls))) ls))
    /\ Frame.Profit (raw_data out)
       = Some (map CInt (zip_with
                 (fun (first_item : bool) l =>
                    (UnitPrice l - UnitCost l) * LQTY l
                    + (if first_item then 15 else 0))
                 (map negb (duplicated (map OrderID ls))) ls)).
Proof.
  rewrite main_lines by assumption. eexists. split; [reflexivity|].
  rewrite load_lines_frame.
  cbn [raw_data frame_after_months frame_of Frame.columns Frame.present
       Frame.Order_ID Frame.Email Frame.Date_placed Frame.Date_Completed
       Frame.SKU Frame.QTY Frame.Unit_Price Frame.Unit_Cost Frame.Revenue
       Frame.Profit Frame.Is_First_Item app].
  repeat (split; [reflexivity|]).
  unfold revenue_after_products. rewrite with_fee_twice, with_fee_once.
  split; reflexivity.
Qed.

(** X14 at the table of one order of one line. *)
Lemma X14_witness :
  one_order <> [] /\ int64_safe one_order
  /\ exists out,
       main (map raw_of_line one_order) = Ok out
       /\ Frame.columns (raw_data out)
          = ["Order ID"; "Email"; "Date placed"; "Date Completed"; "SKU"; "QTY";
             "Unit Price"; "Unit Cost"; "Revenue"; "Profit"; "Is_First_Item"]
       /\ Frame.Revenue (raw_data out) = Some [CInt 130]
       /\ Frame.Profit (raw_data out) = Some [CInt 75].
Proof.
  split; [exact one_order_nonempty|]. split; [exact one_order_safe|].
  destruct (X14_raw_data_is_the_mutated_frame one_order_nonempty one_order_safe)
    as [out [Hmain [Hcols [_ [_ [_ [_ [_ [_ [_ [_ [_ [Hrev Hprofit]]]]]]]]]]]]].
  exists out. split; [exact Hmain|]. split; [exact Hcols|].
  split; [exact Hrev | exact Hprofit].
Defined.

(* ================================================================== *)
(** * Text cells in the product aggregator *)














(* ================================================================== *)
(** * Profit reconciles across the tables *)

Lemma orders_total_profit ls :
  Zsum (map Order.Profit (orders_of ls))
  = Zsum (map line_profit ls) + 15 * distinct_orders ls.
Proof.
  unfold orders_of. rewrite map_map. cbn [classified Order.Profit].
  unfold sorted_orders.
  rewrite (Zsum_map_perm Order.Profit (sort_by_perm date_le _)).
  rewrite map_map. cbn [order_of Order.Profit].
  rewrite (map_ext _ (fun k => Zsum (map line_profit (order_lines ls k)) + 15)).
  - rewrite (Zsum_map_add (fun k => Zsum (map line_profit (order_lines ls k)))
                          (fun _ => 15)).
    rewrite Zsum_map_const. fold (distinct_orders ls). f_equal.
    rewrite <- (Zsum_string_groups (map OrderID ls) (map line_profit ls))
      by now rewrite !length_map.
    f_equal. apply map_ext. intros k. unfold group_mask, order_lines.
    now rewrite map_map, take_rows_filter.
  - intros k.
    assert (E : forall g, Zsum (map line_profit g)
                          = Zsum (map line_revenue g) - Zsum (map line_cost g)).
    { induction g as [|l g IH]; simpl; [reflexivity|].
      rewrite IH. unfold line_profit, line_revenue, line_cost. lia. }
    rewrite E. lia.
Qed.

(** X16.  On a table of integers with at least one line on which no 64-bit
    operation wraps around, in the pipeline of [main] the three tables agree
    on profit: the Profit column of the order table, the Profit column of the
    product table and the Profit column of the monthly table add up to the
    same total, the sum of (Unit Price - Unit Cost) x QTY over all lines plus
    15 per distinct order.  (Their Revenue totals do not agree: see X1.) *)
Theorem X16_profit_totals_agree (ls : list Line)
    (Hne : ls <> []) (Hsafe : int64_safe ls) :
  exists out monthly_profits,
    main (map raw_of_line ls) = Ok out
    /\ map MonthBucket.Profit (profitability_data out) = map CInt monthly_profits
    /\ Zsum (map Order.Profit (order_data out))
       = Zsum (map Product.Profit (product_analysis out))
    /\ Zsum (map Product.Profit (product_analysis out)) = Zsum monthly_profits
    /\ Zsum monthly_profits
       = Zsum (map (fun l => (UnitPrice l - UnitCost l) * LQTY l) ls)
         + 15 * distinct_orders ls.
Proof.
  rewrite main_lines by assumption. do 2 eexists. split; [reflexivity|].
  cbn [profitability_data order_data product_analysis].
  split; [apply months_of_profit|].
  rewrite orders_total_profit, products_total_profit, months_total_profit.
  repeat split.
Qed.

(** X16 at the table of one order of one line. *)
Lemma X16_witness :
  one_order <> [] /\ int64_safe one_order
  /\ exists out monthly_profits,
       main (map raw_of_line one_order) = Ok out
       /\ map MonthBucket.Profit (profitability_data out) = map CInt monthly_profits
       /\ Zsum (map Order.Profit (order_data out))
          = Zsum (map Product.Profit (product_analysis out))
       /\ Zsum (map Product.Profit (product_analysis out)) = Zsum monthly_profits
       /\ Zsum monthly_profits
          = Zsum (map (fun l => (UnitPrice l - UnitCost l) * LQTY l) one_order)
            + 15 * distinct_orders one_order.
Proof.
  split; [exact one_order_nonempty|]. split; [exact one_order_safe|].
  exact (X16_profit_totals_agree one_order_nonempty one_order_safe).
Defined.

(* ================================================================== *)
(** * A table without lines *)

(** X17.  An uploaded table without lines is not analysed: [analyse_data]
    raises ValueError where it assigns the customer types, and [main]
    returns no table; [analyse_product_sales] alone returns an empty product
    table. *)
Theorem X17_table_without_lines :
  analyse_data (load_data []) = Raise ValueError
  /\ main [] = Raise ValueError
  /\ exists df, analyse_product_sales (load_data []) = Ok ([], df).
Proof.
  split; [reflexivity|]. split; [reflexivity|]. eexists. reflexivity.
Qed.
